(** * KitaKits messenger bot: command interpreter, sessions and counters

    A shallow embedding of [FacebookMessengerBot] (src/KitaKits.py): the four
    SQLite tables, the session check, the login, the counter store, the audit
    log and [process_command], followed by the properties of the
    specification that concern them. *)

From Stdlib Require Import ZArith Ascii String DecimalString.
From stdpp Require Import base option list strings gmap.

Local Open Scope Z_scope.

(** ** Python text

    A [str] is modelled as a [string] whose characters are the code points
    below 256.  The helpers below are the [str] methods that
    [process_command] calls. *)
Module Py.

(** [str.isspace] on one code point: TAB..CR, FS..US, SPACE, NEL, NBSP. *)
Definition isspace (c : ascii) : bool :=
  let n := Z.of_N (N_of_ascii c) in
  ((9 <=? n) && (n <=? 13)) || ((28 <=? n) && (n <=? 32))
  || (n =? 133) || (n =? 160).

(** [str.lower] on one code point: A..Z and the capital letters of the
    upper half (all of 192..222 but the multiplication sign 215). *)
Definition lower_char (c : ascii) : ascii :=
  let n := Z.of_N (N_of_ascii c) in
  if ((65 <=? n) && (n <=? 90))
     || ((192 <=? n) && (n <=? 222) && negb (n =? 215))
  then ascii_of_N (Z.to_N (n + 32)) else c.

Fixpoint lower (s : string) : string :=
  match s with
  | EmptyString => EmptyString
  | String c r => String (lower_char c) (lower r)
  end.

Fixpoint lstrip (s : string) : string :=
  match s with
  | EmptyString => EmptyString
  | String c r => if isspace c then lstrip r else s
  end.

Fixpoint rstrip (s : string) : string :=
  match s with
  | EmptyString => EmptyString
  | String c r =>
      match rstrip r with
      | EmptyString => if isspace c then EmptyString else String c EmptyString
      | r' => String c r'
      end
  end.

(** [s.strip()] *)
Definition strip (s : string) : string := rstrip (lstrip s).

(** [s.startswith(p)] *)
Fixpoint startswith (p s : string) : bool :=
  match p with
  | EmptyString => true
  | String a p' =>
      match s with
      | EmptyString => false
      | String b s' => Ascii.eqb a b && startswith p' s'
      end
  end.

(** [s.endswith(p)] *)
Fixpoint endswith (p s : string) : bool :=
  String.eqb p s
  || match s with
     | EmptyString => false
     | String _ r => endswith p r
     end.

(** [s[1:-1]] *)
Definition slice_1_m1 (s : string) : string :=
  String.substring 1 (String.length s - 2) s.

(** [str(n)] for an [int] *)
Definition str_int (n : Z) : string := NilZero.string_of_int (Z.to_int n).

End Py.

(** ** Exceptions and the state monad of one request *)

Inductive exception : Type :=
| IntegrityError (msg : string)   (* sqlite3.IntegrityError *)
| OverflowError (msg : string)    (* int outside the range of an INTEGER column *)
| EnvironmentError (msg : string) (* raised by pandas, the file system or requests *).

(** [str(e)] *)
Definition str_exception (e : exception) : string :=
  match e with
  | IntegrityError m | OverflowError m | EnvironmentError m => m
  end.

Inductive outcome (A : Type) : Type :=
| Return (a : A)
| Raise (e : exception).
Arguments Return {A} a.
Arguments Raise {A} e.

(** ** The tables (schema of [init_database])

    A timestamp is a point of the time line, an integer number of
    microseconds.  The [id INTEGER PRIMARY KEY AUTOINCREMENT] column of a
    table is the position of the row in its list. *)
Definition timestamp : Type := Z.

Record user_row : Type := mk_user {
  u_facebook_id : string;
  u_username : string;
  u_password_hash : string;
  u_is_authenticated : Z;
  u_created_at : timestamp;
  u_last_login : option timestamp
}.

Record item_row : Type := mk_item {
  i_name : string;
  i_count : Z;
  i_created_at : timestamp;
  i_updated_at : timestamp
}.

Record command_log_row : Type := mk_log {
  l_facebook_id : string;
  l_command : string;
  l_parameters : option string;
  l_success : Z;
  l_error_message : option string;
  l_timestamp : timestamp
}.

Record session_row : Type := mk_session {
  s_facebook_id : string;
  s_session_token : string;
  s_expires_at : timestamp;
  s_created_at : timestamp
}.

(** The state a request runs in: the database file, the [reports]
    directory, the file uploads attempted and the lines of [logger.error].
    The [items] table is keyed by its [item_id UNIQUE] column. *)
Record world : Type := mk_world {
  users : list user_row;
  items : gmap string item_row;
  command_logs : list command_log_row;
  user_sessions : list session_row;
  report_files : list string;
  uploads : list (string * string);
  logger_errors : list string
}.

Definition set_users (us : list user_row) (w : world) : world :=
  mk_world us (items w) (command_logs w) (user_sessions w)
           (report_files w) (uploads w) (logger_errors w).
Definition set_items (it : gmap string item_row) (w : world) : world :=
  mk_world (users w) it (command_logs w) (user_sessions w)
           (report_files w) (uploads w) (logger_errors w).
Definition set_command_logs (ls : list command_log_row) (w : world) : world :=
  mk_world (users w) (items w) ls (user_sessions w)
           (report_files w) (uploads w) (logger_errors w).
Definition set_user_sessions (ss : list session_row) (w : world) : world :=
  mk_world (users w) (items w) (command_logs w) ss
           (report_files w) (uploads w) (logger_errors w).
Definition set_report_files (fs : list string) (w : world) : world :=
  mk_world (users w) (items w) (command_logs w) (user_sessions w)
           fs (uploads w) (logger_errors w).
Definition set_uploads (up : list (string * string)) (w : world) : world :=
  mk_world (users w) (items w) (command_logs w) (user_sessions w)
           (report_files w) up (logger_errors w).
Definition set_logger_errors (ls : list string) (w : world) : world :=
  mk_world (users w) (items w) (command_logs w) (user_sessions w)
           (report_files w) (uploads w) ls.

(** What the surroundings answer during one request: the two clocks the
    code reads (SQLite's [CURRENT_TIMESTAMP] and Python's [datetime.now()]),
    whether writing the spreadsheet works, and what the upload returns.
    Each clock shows one value for the whole of a request, and the
    timestamps of both are compared as points of the same time line. *)
Inductive post_outcome : Type :=
| Responded (status_code : Z) (text : string)
| PostRaised (msg : string).

Record env : Type := mk_env {
  CURRENT_TIMESTAMP : timestamp;
  datetime_now : timestamp;
  report_io : option string;      (* [Some msg]: building the report raises *)
  post_file : post_outcome
}.

Definition M (A : Type) : Type := world -> outcome A * world.

Definition ret {A} (a : A) : M A := fun w => (Return a, w).
Definition raise {A} (e : exception) : M A := fun w => (Raise e, w).
Definition bind {A B} (m : M A) (k : A -> M B) : M B :=
  fun w => match m w with
           | (Return a, w') => k a w'
           | (Raise e, w') => (Raise e, w')
           end.
Definition gets {A} (f : world -> A) : M A := fun w => (Return (f w), w).
Definition modify (f : world -> world) : M unit := fun w => (Return tt, f w).

(** [try: body except Exception as e: handler(e)] *)
Definition try_except {A} (body : M A) (handler : exception -> M A) : M A :=
  fun w => match body w with
           | (Return a, w') => (Return a, w')
           | (Raise e, w') => handler e w'
           end.

Declare Scope py_scope.
Delimit Scope py_scope with py.
Notation "x <- m ;; k" := (bind m (fun x => k))
  (at level 100, m at next level, right associativity) : py_scope.
Notation "m ;; k" := (bind m (fun _ => k))
  (at level 100, right associativity) : py_scope.

(** ** Library functions the bot calls

    werkzeug's [check_password_hash], [hashlib.sha256(..).hexdigest()],
    [str] of a [datetime] and [strftime('%Y%m%d_%H%M%S')]. *)
Class Library : Type := {
  check_password_hash : string -> string -> bool;
  sha256_hexdigest : string -> string;
  str_datetime : timestamp -> string;
  strftime_compact : timestamp -> string
}.

(** ** The bot *)
Section Bot.

Context {lib : Library}.

(** [timedelta(hours=h)] *)
Definition timedelta_hours (h : Z) : Z := h * 3600 * 1000000.

(** A Python [int] can be bound to an [INTEGER] column only when it fits
    64 signed bits; otherwise [execute] raises [OverflowError]. *)
Definition fits_sqlite_integer (n : Z) : bool :=
  (- 2 ^ 63 <=? n) && (n <? 2 ^ 63).

(** [int(success)] *)
Definition int_of_bool (b : bool) : Z := if b then 1 else 0.

(** *** log_command *)
Definition log_command (e : env) (facebook_id command : string)
    (parameters : option string) (success : bool)
    (error_message : option string) : M unit :=
  modify (fun w =>
    set_command_logs
      (command_logs w ++
         [mk_log facebook_id command parameters (int_of_bool success)
                 error_message (CURRENT_TIMESTAMP e)]) w).

(** *** is_user_authenticated *)

(** [ORDER BY created_at DESC]: insertion sort on the second component. *)
Fixpoint insert_desc (r : timestamp * timestamp)
    (l : list (timestamp * timestamp)) : list (timestamp * timestamp) :=
  match l with
  | [] => [r]
  | x :: l' => if snd x <? snd r then r :: l else x :: insert_desc r l'
  end.
Definition order_by_created_desc (l : list (timestamp * timestamp))
    : list (timestamp * timestamp) :=
  foldr insert_desc [] l.

(** The rows [(us.expires_at, us.created_at)] of
    [user_sessions us JOIN users u ON us.facebook_id = u.facebook_id
     WHERE us.facebook_id = ? AND us.expires_at > CURRENT_TIMESTAMP]. *)
Definition session_join (e : env) (facebook_id : string) (w : world)
    : list (timestamp * timestamp) :=
  flat_map (fun us =>
    flat_map (fun u =>
      if String.eqb (s_facebook_id us) (u_facebook_id u)
         && String.eqb (s_facebook_id us) facebook_id
         && (CURRENT_TIMESTAMP e <? s_expires_at us)
      then [(s_expires_at us, s_created_at us)] else [])
      (users w))
    (user_sessions w).

Definition is_user_authenticated (e : env) (facebook_id : string)
    (w : world) : bool :=
  let result := head (order_by_created_desc (session_join e facebook_id w)) in
  match result with Some _ => true | None => false end.

(** *** authenticate_user *)

(** [UPDATE users SET facebook_id = ?, last_login = CURRENT_TIMESTAMP
     WHERE username = ?] *)
Definition update_login (e : env) (facebook_id username : string)
    (us : list user_row) : list user_row :=
  map (fun u =>
    if String.eqb (u_username u) username
    then mk_user facebook_id (u_username u) (u_password_hash u)
                 (u_is_authenticated u) (u_created_at u)
                 (Some (CURRENT_TIMESTAMP e))
    else u) us.

(** The [facebook_id TEXT UNIQUE] column: the update is refused when it
    would leave two rows holding the new value. *)
Definition count_facebook_id (facebook_id : string) (us : list user_row) : nat :=
  length (filter (fun u => u_facebook_id u = facebook_id) us).

Definition authenticate_user (e : env)
    (facebook_id username password : string) : M (bool * string) :=
  fun w =>
    let result :=
      head (filter (fun u => u_username u = username) (users w)) in
    match result with
    | None => (Return (false, "Invalid credentials"), w)
    | Some row =>
        if negb (check_password_hash (u_password_hash row) password)
        then (Return (false, "Invalid credentials"), w)
        else
          let users' := update_login e facebook_id username (users w) in
          if (1 <? count_facebook_id facebook_id users')%nat
          then (Raise (IntegrityError
                         "UNIQUE constraint failed: users.facebook_id"), w)
          else
            let session_token :=
              sha256_hexdigest
                (facebook_id +:+ str_datetime (datetime_now e)) in
            let expires_at := datetime_now e + timedelta_hours 24 in
            (Return (true, "Authentication successful"),
             set_user_sessions
               (user_sessions w ++
                  [mk_session facebook_id session_token expires_at
                              (CURRENT_TIMESTAMP e)])
               (set_users users' w))
    end.

(** *** get_item_count *)
Definition get_item_count (item_id : string) (w : world) : option Z :=
  i_count <$> items w !! item_id.

(** *** modify_item_count *)
Definition modify_item_count (e : env) (item_id operation : string)
    (amount : Z) : M (bool * string * Z) :=
  fun w =>
    let message := "Item " +:+ item_id +:+ " " +:+ operation
                   +:+ "ed successfully" in
    match items w !! item_id with
    | None =>
        let new_count := if String.eqb operation "add" then 1 else 0 in
        (Return (true, message, new_count),
         set_items
           (<[item_id := mk_item item_id new_count (CURRENT_TIMESTAMP e)
                                 (CURRENT_TIMESTAMP e)]> (items w)) w)
    | Some row =>
        let current_count := i_count row in
        let new_count :=
          if String.eqb operation "add" then current_count + amount
          else Z.max 0 (current_count - amount) in
        if fits_sqlite_integer new_count
        then (Return (true, message, new_count),
              set_items
                (<[item_id := mk_item (i_name row) new_count
                                      (i_created_at row)
                                      (CURRENT_TIMESTAMP e)]> (items w)) w)
        else (Raise (OverflowError
                "Python int too large to convert to SQLite INTEGER"), w)
    end.

(** *** generate_statistics_report

    The three queries and the spreadsheet are the business of pandas;
    what the interpreter sees is the path of the file written, or the
    exception. *)
Definition generate_statistics_report (e : env) (facebook_id : string)
    : M string :=
  match report_io e with
  | Some msg => raise (EnvironmentError msg)
  | None =>
      let filename := "statistics_report_"
                      +:+ strftime_compact (datetime_now e) +:+ ".xlsx" in
      let filepath := "reports/" +:+ filename in
      (modify (fun w => set_report_files (report_files w ++ [filepath]) w) ;;
       ret filepath)%py
  end.

(** *** send_file *)
Definition send_file (e : env) (recipient_id file_path : string) : M unit :=
  (modify (fun w => set_uploads (uploads w ++ [(recipient_id, file_path)]) w) ;;
   match post_file e with
   | PostRaised msg => raise (EnvironmentError msg)
   | Responded status_code text =>
       if negb (status_code =? 200)
       then modify (fun w =>
              set_logger_errors
                (logger_errors w ++ ["Failed to send file: " +:+ text]) w)
       else ret tt
   end)%py.

(** *** process_command *)
Definition help_text : string :=
  "Available commands:
[help] - Show this help message
[username] [password] - Login (e.g., [admin] [admin123])
[itemID] - Set target item for operations
[add] - Add 1 to current item count
[subtract] - Subtract 1 from current item count
[count] - Get current count for item
[statistics] - Generate and send Excel report

Note: You must be authenticated to use commands other than [help].".

Definition login_prompt : string :=
  "Please authenticate first. Use [username] followed by [password] or use [help] for instructions.".

Definition bracketed (message_text : string) : bool :=
  Py.startswith "[" message_text && Py.endswith "]" message_text.

(** Lines 355-394: the commands of an authenticated sender. *)
Definition dispatch (e : env) (facebook_id message_text : string) : M string :=
  (if bracketed message_text then
     let command := Py.lower (Py.slice_1_m1 message_text) in
     if String.eqb command "statistics" then
       try_except
         (report_path <- generate_statistics_report e facebook_id ;;
          send_file e facebook_id report_path ;;
          log_command e facebook_id "statistics" None true None ;;
          ret "Statistics report generated and sent!")
         (fun ex =>
            log_command e facebook_id "statistics" None false
                        (Some (str_exception ex)) ;;
            ret ("Error generating report: " +:+ str_exception ex))
     else if String.eqb command "add" then
       r <- modify_item_count e "default_item" "add" 1 ;;
       let '(success, message, new_count) := r in
       log_command e facebook_id "add" (Some "default_item") success None ;;
       ret (message +:+ ". New count: " +:+ Py.str_int new_count)
     else if String.eqb command "subtract" then
       r <- modify_item_count e "default_item" "subtract" 1 ;;
       let '(success, message, new_count) := r in
       log_command e facebook_id "subtract" (Some "default_item") success None ;;
       ret (message +:+ ". New count: " +:+ Py.str_int new_count)
     else if String.eqb command "count" then
       count <- gets (get_item_count "default_item") ;;
       let count := match count with Some c => c | None => 0 end in
       log_command e facebook_id "count" (Some "default_item") true None ;;
       ret ("Current count for default_item: " +:+ Py.str_int count)
     else
       log_command e facebook_id "set_item" (Some command) true None ;;
       ret ("Item '" +:+ command
            +:+ "' selected. Use [add], [subtract], or [count] to interact with it.")
   else
     log_command e facebook_id "unknown" (Some message_text) false
                 (Some "Unknown command") ;;
     ret "Unknown command. Use [help] to see available commands.")%py.

(** Lines 351-394: the second authentication check, then the dispatch. *)
Definition authenticated_commands (e : env) (facebook_id message_text : string)
    : M string :=
  (authenticated <- gets (is_user_authenticated e facebook_id) ;;
   if negb authenticated then
     ret "You must be authenticated to use this command. Please login first."
   else dispatch e facebook_id message_text)%py.

Definition process_command (e : env) (facebook_id message_text : string)
    : M string :=
  (let message_text := Py.strip message_text in
   if String.eqb message_text "[help]" then
     log_command e facebook_id "help" None true None ;;
     ret help_text
   else if bracketed message_text then
     let content := Py.slice_1_m1 message_text in
     authenticated <- gets (is_user_authenticated e facebook_id) ;;
     if negb authenticated then
       r <- authenticate_user e facebook_id content content ;;
       let '(success, message) := r in
       if success then
         log_command e facebook_id "login" (Some content) true None ;;
         ret message
       else ret login_prompt
     else authenticated_commands e facebook_id message_text
   else authenticated_commands e facebook_id message_text)%py.

End Bot.

(** ** Vocabulary of the properties *)
Section Vocabulary.

Context {lib : Library}.

(** The audit row that [log_command] writes. *)
Definition audit_row (e : env) (facebook_id command : string)
    (parameters : option string) (success : bool)
    (error_message : option string) : command_log_row :=
  mk_log facebook_id command parameters (int_of_bool success) error_message
         (CURRENT_TIMESTAMP e).

Definition logged (r : command_log_row) (w : world) : world :=
  set_command_logs (command_logs w ++ [r]) w.

(** A user row is bound to the identity. *)
Definition bound (facebook_id : string) (w : world) : Prop :=
  exists u, u ∈ users w /\ u_facebook_id u = facebook_id.

(** The identity holds a session that has not expired at the clock of [e]. *)
Definition has_unexpired_session (e : env) (facebook_id : string) (w : world)
    : Prop :=
  exists s, s ∈ user_sessions w /\ s_facebook_id s = facebook_id
            /\ CURRENT_TIMESTAMP e < s_expires_at s.

(** The row that [SELECT password_hash FROM users WHERE username = ?]
    fetches. *)
Definition stored_row (username : string) (w : world) : option user_row :=
  head (filter (fun u => u_username u = username) (users w)).

(** The test of line 149, negated. *)
Definition credentials_valid (username password : string) (w : world) : bool :=
  match stored_row username w with
  | Some row => check_password_hash (u_password_hash row) password
  | None => false
  end.

(** The session row of lines 160-166. *)
Definition new_session (e : env) (facebook_id : string) : session_row :=
  mk_session facebook_id
    (sha256_hexdigest (facebook_id +:+ str_datetime (datetime_now e)))
    (datetime_now e + timedelta_hours 24) (CURRENT_TIMESTAMP e).

(** The state after a login went through. *)
Definition logged_in (e : env) (facebook_id username : string) (w : world)
    : world :=
  set_user_sessions (user_sessions w ++ [new_session e facebook_id])
    (set_users (update_login e facebook_id username (users w)) w).

(** The path [generate_statistics_report] writes to. *)
Definition report_path (e : env) : string :=
  "reports/" +:+ "statistics_report_"
  +:+ strftime_compact (datetime_now e) +:+ ".xlsx".

(** The count that [modify_item_count] computes for an existing row. *)
Definition next_count (operation : string) (current_count amount : Z) : Z :=
  if String.eqb operation "add" then current_count + amount
  else Z.max 0 (current_count - amount).

Definition first_count (operation : string) : Z :=
  if String.eqb operation "add" then 1 else 0.

(** The call appended exactly one audit row, for this sender. *)
Definition appends_one_record (facebook_id : string) (w w' : world) : Prop :=
  exists r, command_logs w' = command_logs w ++ [r]
            /\ l_facebook_id r = facebook_id.

(** The keywords that [dispatch] handles itself. *)
Definition is_keyword (command : string) : bool :=
  String.eqb command "statistics" || String.eqb command "add"
  || String.eqb command "subtract" || String.eqb command "count".

End Vocabulary.

(** ** Sample instances

    Stand-ins for the library functions and two databases, used to run
    the model on concrete inputs. *)
Module Sample.

Definition generate_password_hash (password : string) : string :=
  "plain$" +:+ password.

Definition library : Library := {|
  check_password_hash pwhash password :=
    String.eqb pwhash (generate_password_hash password);
  sha256_hexdigest s := "sha256:" +:+ s;
  str_datetime t := Py.str_int t;
  strftime_compact t := Py.str_int t
|}.

Definition second : Z := 1000000.

(** Both clocks read [t]; the report is written and the upload answers 200. *)
Definition at_time (t : timestamp) : env :=
  mk_env t t None (Responded 200 "").

(** The database right after [init_database]: the account admin/admin123. *)
Definition fresh_db : world :=
  mk_world [mk_user "admin_fb_id" "admin" (generate_password_hash "admin123")
                    0 0 None]
           ∅ [] [] [] [] [].

(** The database of end-to-end scenario 2: the password of admin is
    "admin". *)
Definition scenario_db : world :=
  mk_world [mk_user "admin_fb_id" "admin" (generate_password_hash "admin")
                    0 0 None]
           ∅ [] [] [] [] [].

(** A database with one counter, [widget], at count [c]. *)
Definition counter_db (c : Z) : world :=
  set_items {[ "widget" := mk_item "widget" c 0 0 ]} fresh_db.

Definition authenticate_user := authenticate_user (lib := library).
Definition process_command := process_command (lib := library).

(** The database of scenario 2 after X logged in as admin at time 0. *)
Definition after_login_X : world :=
  snd (authenticate_user (at_time 0) "X" "admin" "admin" scenario_db).

(** ... and after Y logged in as admin one second later. *)
Definition after_login_Y : world :=
  snd (authenticate_user (at_time second) "Y" "admin" "admin" after_login_X).

(** The database of scenario 2 with a second account, named count, and a
    session of X that is bound to admin. *)
Definition keyword_user_db : world :=
  set_user_sessions
    [mk_session "X" "sha256:X0" (timedelta_hours 24) 0]
    (set_users
       [mk_user "X" "admin" (generate_password_hash "admin") 0 0 (Some 0);
        mk_user "count_fb_id" "count" (generate_password_hash "count") 0 0
                None]
       scenario_db).

End Sample.

(** ** Start-up, webhook and report queries

    The rest of src/KitaKits.py: [init_database], the signature check, the
    outbound text message, the POST handler of [/webhook] and the second
    query of the statistics report. *)
Section Server.

Context {lib : Library}.

(** werkzeug's [generate_password_hash], and
    [hmac.new(key, msg, hashlib.sha256).hexdigest()]. *)
Variable generate_password_hash : string -> string.
Variable hmac_sha256_hexdigest : string -> string -> string.

(** *** init_database

    The four [CREATE TABLE IF NOT EXISTS] leave existing tables alone; a
    database file that does not exist yet is the one with empty tables. *)
Definition empty_db : world := mk_world [] ∅ [] [] [] [] [].

Definition init_database (e : env) : M unit :=
  fun w =>
    let admins := filter (fun u => u_username u = "admin") (users w) in
    if (length admins =? 0)%nat then
      if (0 <? count_facebook_id "admin_fb_id" (users w))%nat
      then (Raise (IntegrityError "UNIQUE constraint failed: users.facebook_id"),
            w)
      else
        let admin_hash := generate_password_hash "admin123" in
        (Return tt,
         set_users
           (users w ++ [mk_user "admin_fb_id" "admin" admin_hash 0
                                (CURRENT_TIMESTAMP e) None]) w)
    else (Return tt, w).

(** *** verify_webhook_signature

    The header is absent ([None]) or a text.  [hmac.compare_digest] accepts
    two [str] only when both are ASCII, and raises [TypeError] otherwise. *)
Inductive verdict : Type :=
| Verdict (valid : bool)
| TypeError (msg : string).

Definition is_ascii_char (c : ascii) : bool := (N_of_ascii c <? 128)%N.

Fixpoint isascii (s : string) : bool :=
  match s with
  | EmptyString => true
  | String c r => is_ascii_char c && isascii r
  end.

Definition compare_digest (a b : string) : verdict :=
  if isascii a && isascii b then Verdict (String.eqb a b)
  else TypeError "comparing strings with non-ASCII characters is not supported".

Definition verify_webhook_signature (app_secret payload : string)
    (signature : option string) : verdict :=
  match signature with
  | None => Verdict false
  | Some EmptyString => Verdict false
  | Some signature =>
      let expected_signature := hmac_sha256_hexdigest app_secret payload in
      compare_digest ("sha256=" +:+ expected_signature) signature
  end.

(** *** send_message

    The server is the store together with the text messages handed to the
    platform, as (recipient, text). *)
Record server : Type := mk_server {
  store : world;
  sent_messages : list (string * string)
}.

Definition send_message (post : post_outcome)
    (recipient_id message_text : string) (s : server)
    : outcome unit * server :=
  let s1 := mk_server (store s)
                      (sent_messages s ++ [(recipient_id, message_text)]) in
  match post with
  | PostRaised msg => (Raise (EnvironmentError msg), s1)
  | Responded status_code text =>
      if negb (status_code =? 200)
      then (Return tt,
            mk_server
              (set_logger_errors
                 (logger_errors (store s)
                  ++ ["Failed to send message: " +:+ text]) (store s))
              (sent_messages s1))
      else (Return tt, s1)
  end.

(** *** handle_webhook

    The parsed body has the shape the platform sends: an optional
    [object], and entries that each hold a list of [messaging] events; an
    event names its sender and may hold a [message], whose [text] may be
    missing.  Each event comes with what the surroundings answer while it
    is handled: the clocks and I/O of [process_command], and the response
    to the reply. *)
Record messaging_event : Type := mk_event {
  ev_sender_id : string;
  ev_message : option (option string);
  ev_env : env;
  ev_post : post_outcome
}.

Record webhook_request : Type := mk_request {
  rq_signature : option string;     (* header X-Hub-Signature-256 *)
  rq_data : string;                 (* the body as text *)
  rq_object : option string;
  rq_entry : list (list messaging_event)
}.

(** The body of the innermost loop. *)
Definition handle_event (ev : messaging_event) (s : server)
    : outcome unit * server :=
  match ev_message ev with
  | None => (Return tt, s)
  | Some message =>
      let sender_id := ev_sender_id ev in
      let message_text := default "" message in
      match process_command (ev_env ev) sender_id message_text (store s) with
      | (Return response, w') =>
          send_message (ev_post ev) sender_id response
                       (mk_server w' (sent_messages s))
      | (Raise ex, w') => (Raise ex, mk_server w' (sent_messages s))
      end
  end.

(** [for messaging_event in entry.get('messaging', [])] *)
Fixpoint handle_events (evs : list messaging_event) (s : server)
    : outcome unit * server :=
  match evs with
  | [] => (Return tt, s)
  | ev :: evs' =>
      match handle_event ev s with
      | (Return _, s') => handle_events evs' s'
      | (Raise ex, s') => (Raise ex, s')
      end
  end.

(** [for entry in data.get('entry', [])] *)
Fixpoint handle_entries (entries : list (list messaging_event)) (s : server)
    : outcome unit * server :=
  match entries with
  | [] => (Return tt, s)
  | entry :: entries' =>
      match handle_events entry s with
      | (Return _, s') => handle_entries entries' s'
      | (Raise ex, s') => (Raise ex, s')
      end
  end.

(** What the client gets: a body with a status, or the status 500 that
    Flask makes of an exception nobody caught. *)
Inductive response : Type :=
| Response (body : string) (status_code : Z)
| Unhandled (e : exception)
| UnhandledTypeError (msg : string).

Definition handle_webhook (app_secret : string) (rq : webhook_request)
    (s : server) : response * server :=
  match verify_webhook_signature app_secret (rq_data rq) (rq_signature rq) with
  | TypeError msg => (UnhandledTypeError msg, s)
  | Verdict false => (Response "Invalid signature" 403, s)
  | Verdict true =>
      if decide (rq_object rq = Some "page") then
        match handle_entries (rq_entry rq) s with
        | (Return _, s') => (Response "OK" 200, s')
        | (Raise ex, s') => (Unhandled ex, s')
        end
      else (Response "OK" 200, s)
  end.

(** The senders of the events that hold a message, in order. *)
Definition message_senders (evs : list messaging_event) : list string :=
  ev_sender_id <$> filter (fun ev => is_Some (ev_message ev)) evs.

(** What handling went through so far did to the audit log, the sessions
    and the outbox. *)
Definition handled (senders : list string) (s s' : server) : Prop :=
  (exists rows, command_logs (store s') = command_logs (store s) ++ rows
                /\ (length rows <= length senders)%nat)
  /\ (forall x, x ∈ user_sessions (store s) -> x ∈ user_sessions (store s'))
  /\ exists replies, sent_messages s' = sent_messages s ++ replies
                     /\ replies.*1 `prefix_of` senders.

(** *** The command-usage query of generate_statistics_report

    [SELECT command, COUNT of rows, MAX(timestamp), SUM(success),
     COUNT - SUM(success) FROM command_logs GROUP BY command
     ORDER BY usage_count DESC], and the two numbers of the summary sheet
    that are computed from the tables. *)
Record usage_row : Type := mk_usage {
  g_command : string;
  g_usage_count : Z;
  g_last_used : timestamp;
  g_success_count : Z;
  g_error_count : Z
}.

(** One more row of [command_logs] enters its group. *)
Fixpoint group_add (r : command_log_row) (gs : list usage_row)
    : list usage_row :=
  match gs with
  | [] => [mk_usage (l_command r) 1 (l_timestamp r) (l_success r)
                    (1 - l_success r)]
  | g :: gs' =>
      if String.eqb (g_command g) (l_command r)
      then mk_usage (g_command g) (g_usage_count g + 1)
                    (Z.max (g_last_used g) (l_timestamp r))
                    (g_success_count g + l_success r)
                    (g_usage_count g + 1 - (g_success_count g + l_success r))
           :: gs'
      else g :: group_add r gs'
  end.

Definition group_by_command (logs : list command_log_row) : list usage_row :=
  fold_left (fun gs r => group_add r gs) logs [].

Fixpoint insert_usage_desc (g : usage_row) (l : list usage_row)
    : list usage_row :=
  match l with
  | [] => [g]
  | x :: l' =>
      if g_usage_count x <? g_usage_count g then g :: l
      else x :: insert_usage_desc g l'
  end.

Definition command_usage (w : world) : list usage_row :=
  foldr insert_usage_desc [] (group_by_command (command_logs w)).

(** [len(items_df)] *)
Definition total_items (w : world) : Z := Z.of_nat (size (items w)).

(** [logs_df['usage_count'].sum() if not logs_df.empty else 0] *)
Definition total_commands_executed (w : world) : Z :=
  match command_usage w with
  | [] => 0
  | logs_df => foldr (fun g acc => g_usage_count g + acc) 0 logs_df
  end.

(** The rows of [command_logs] with a given command, and the sum of their
    success flags. *)
Definition rows_of (command : string) (logs : list command_log_row)
    : list command_log_row :=
  filter (fun r => l_command r = command) logs.

Definition sum_success (logs : list command_log_row) : Z :=
  foldr (fun r acc => l_success r + acc) 0 logs.

(** What the rows of the sheet say about a log. *)
Definition usage_of (logs : list command_log_row) (gs : list usage_row) : Prop :=
  NoDup (g_command <$> gs)
  /\ (forall c, c ∈ (g_command <$> gs) <-> c ∈ (l_command <$> logs))
  /\ forall g, g ∈ gs ->
       g_usage_count g = Z.of_nat (length (rows_of (g_command g) logs))
       /\ g_success_count g = sum_success (rows_of (g_command g) logs)
       /\ g_error_count g = g_usage_count g - g_success_count g.

(** *** A run of requests

    The store after the interpreter served the requests one after the
    other, each given as surroundings, sender and text. *)
Fixpoint run_requests (requests : list (env * string * string)) (w : world)
    : world :=
  match requests with
  | [] => w
  | (e, facebook_id, message_text) :: requests' =>
      run_requests requests'
                   (snd (process_command e facebook_id message_text w))
  end.

(** Every counter of the store is at zero or above. *)
Definition counts_nonnegative (w : world) : Prop :=
  forall item_id row, items w !! item_id = Some row -> 0 <= i_count row.

(** No account has its own username as its password. *)
Definition no_self_password (w : world) : Prop :=
  forall u, u ∈ users w ->
            check_password_hash (u_password_hash u) (u_username u) = false.

End Server.

(** Sample inputs for the server: a stand-in for the HMAC, a signed body
    with two entries, and a run of requests. *)
Module Fixture.

Definition hmac_sha256_hexdigest (key msg : string) : string :=
  "mac(" +:+ key +:+ "," +:+ msg +:+ ")".

Definition app_secret : string := "secret".

Definition init_database := init_database Sample.generate_password_hash.
Definition handle_webhook :=
  handle_webhook (lib := Sample.library) hmac_sha256_hexdigest.

Definition event (sender : string) (message : option (option string))
    (t : timestamp) : messaging_event :=
  mk_event sender message (Sample.at_time t) (Responded 200 "").

(** X asks for help, a delivery receipt comes in for Y, X logs in as
    admin and adds one. *)
Definition page_request : webhook_request :=
  mk_request (Some "sha256=mac(secret,body)") "body" (Some "page")
    [[event "X" (Some (Some "[help]")) 1; event "Y" None 2];
     [event "X" (Some (Some "[admin]")) 3; event "X" (Some (Some "[add]")) 4]].

Definition requests : list (env * string * string) :=
  [(Sample.at_time 1, "X", "[admin]"); (Sample.at_time 2, "X", "[add]");
   (Sample.at_time 3, "Y", "[admin123]"); (Sample.at_time 4, "Y", "[count]")].

End Fixture.

(** ** Facts about the text helpers *)
Module PyFacts.
Import Py.

Lemma rstrip_snoc (s : string) (c : ascii) :
  isspace c = false -> rstrip (s +:+ String c "") = s +:+ String c "".
Proof.
  intros Hc. induction s as [|a s IH]; simpl.
  - now rewrite Hc.
  - change (String.append s (String c "")) with (s +:+ String c "").
    rewrite IH. destruct s; reflexivity.
Qed.

Lemma strip_bracket (t : string) :
  strip ("[" +:+ t +:+ "]") = "[" +:+ t +:+ "]".
Proof.
  unfold strip. change ("[" +:+ t +:+ "]") with (String "[" (t +:+ "]")).
  cbn [lstrip]. change (isspace "[") with false. cbn iota.
  change (String "[" (t +:+ "]")) with (String "[" t +:+ String "]" "").
  now apply rstrip_snoc.
Qed.

Lemma endswith_snoc (s : string) (c : ascii) :
  endswith (String c "") (s +:+ String c "") = true.
Proof.
  induction s as [|a s IH].
  - simpl. now rewrite Ascii.eqb_refl.
  - change (String a s +:+ String c "") with (String a (s +:+ String c "")).
    cbn [endswith]. rewrite IH. apply orb_true_r.
Qed.

Lemma endswith_inv (s : string) (c : ascii) :
  endswith (String c "") s = true -> exists t, s = t +:+ String c "".
Proof.
  induction s as [|a s IH]; cbn [endswith]; [done|].
  intros [H|H]%orb_prop.
  - apply String.eqb_eq in H. exists "". now rewrite <- H.
  - destruct (IH H) as [t ->]. now exists (String a t).
Qed.

Lemma substring_0_app (t u : string) :
  String.substring 0 (String.length t) (t +:+ u) = t.
Proof.
  induction t as [|a t IH]; simpl.
  - now destruct u.
  - change (String.append t u) with (t +:+ u). now rewrite IH.
Qed.

Lemma length_snoc (t : string) (c : ascii) :
  String.length (t +:+ String c "") = S (String.length t).
Proof. induction t as [|a t IH]; simpl; [reflexivity|]. now f_equal. Qed.

Lemma slice_bracket (t : string) : slice_1_m1 ("[" +:+ t +:+ "]") = t.
Proof.
  unfold slice_1_m1.
  change ("[" +:+ t +:+ "]") with (String "[" (t +:+ "]")).
  cbn [String.length]. rewrite length_snoc.
  replace (S (S (String.length t)) - 2)%nat with (String.length t) by lia.
  cbn [String.substring]. apply substring_0_app.
Qed.

Lemma bracket_inj (t u : string) :
  "[" +:+ t +:+ "]" = "[" +:+ u +:+ "]" -> t = u.
Proof.
  intros H. injection H as H. revert u H.
  induction t as [|a t IH]; intros [|b u] H; simpl in H.
  - reflexivity.
  - injection H as _ H. now destruct u.
  - injection H as _ H. now destruct t.
  - injection H as -> H. f_equal. now apply IH.
Qed.

Lemma bracket_help (t : string) : "[" +:+ t +:+ "]" = "[help]" <-> t = "help".
Proof.
  split; [|now intros ->].
  intros H. now apply bracket_inj.
Qed.

End PyFacts.

(** ** Branches of [process_command] *)
Section Branches.

Context {lib : Library}.


Lemma log_command_run e fid c p s m w :
  log_command e fid c p s m w = (Return tt, logged (audit_row e fid c p s m) w).
Proof. reflexivity. Qed.

Lemma bracketed_bracket (t : string) : bracketed ("[" +:+ t +:+ "]") = true.
Proof.
  unfold bracketed. apply andb_true_intro. split.
  - reflexivity.
  - change ("[" +:+ t +:+ "]") with (String "[" t +:+ String "]" "").
    apply PyFacts.endswith_snoc.
Qed.

Lemma bracketed_inv (s : string) :
  bracketed s = true -> exists t, s = "[" +:+ t +:+ "]".
Proof.
  unfold bracketed. intros [H1 H2]%andb_prop.
  destruct s as [|c s]; [done|]. cbn [Py.startswith] in H1.
  apply andb_prop in H1 as [H1 _]. apply Ascii.eqb_eq in H1 as <-.
  cbn [Py.endswith] in H2. change (String.eqb "]" (String "[" s)) with false in H2.
  cbn [orb] in H2. apply PyFacts.endswith_inv in H2 as [t ->]. now exists t.
Qed.

Lemma process_command_help e fid text w :
  Py.strip text = "[help]" ->
  process_command e fid text w
  = (Return help_text, logged (audit_row e fid "help" None true None) w).
Proof. intros H. unfold process_command. rewrite H. reflexivity. Qed.

Lemma process_command_login e fid text t w :
  Py.strip text = "[" +:+ t +:+ "]" -> t <> "help" ->
  is_user_authenticated e fid w = false ->
  process_command e fid text w
  = match authenticate_user e fid t t w with
    | (Return (true, message), w1) =>
        (Return message,
         logged (audit_row e fid "login" (Some t) true None) w1)
    | (Return (false, _), w1) => (Return login_prompt, w1)
    | (Raise ex, w1) => (Raise ex, w1)
    end.
Proof.
  intros Hs Ht Ha. unfold process_command. rewrite Hs.
  destruct (String.eqb_spec ("[" +:+ t +:+ "]") "[help]") as [E|_].
  { now apply PyFacts.bracket_help in E. }
  rewrite bracketed_bracket, PyFacts.slice_bracket.
  unfold bind at 1, gets. rewrite Ha. cbn [negb].
  unfold bind at 1.
  destruct (authenticate_user e fid t t w) as [[[[] message]|ex] w1];
    reflexivity.
Qed.

Lemma process_command_rejected e fid text w :
  Py.strip text <> "[help]" -> bracketed (Py.strip text) = false ->
  is_user_authenticated e fid w = false ->
  process_command e fid text w
  = (Return "You must be authenticated to use this command. Please login first.",
     w).
Proof.
  intros Hh Hb Ha. unfold process_command.
  destruct (String.eqb_spec (Py.strip text) "[help]") as [E|_]; [done|].
  rewrite Hb. unfold authenticated_commands, bind, gets. now rewrite Ha.
Qed.

Lemma process_command_dispatch e fid text w :
  Py.strip text <> "[help]" ->
  is_user_authenticated e fid w = true ->
  process_command e fid text w = dispatch e fid (Py.strip text) w.
Proof.
  intros Hh Ha. unfold process_command.
  destruct (String.eqb_spec (Py.strip text) "[help]") as [E|_]; [done|].
  assert (Hc : authenticated_commands e fid (Py.strip text) w
               = dispatch e fid (Py.strip text) w).
  { unfold authenticated_commands, bind at 1, gets. now rewrite Ha. }
  destruct (bracketed (Py.strip text)); [|exact Hc].
  unfold bind at 1, gets. rewrite Ha. exact Hc.
Qed.

End Branches.

(** ** The session ledger *)
Section Sessions.

Lemma insert_desc_cons r l : exists x l', insert_desc r l = x :: l'.
Proof. destruct l as [|y l]; simpl; [eauto|]. destruct (_ <? _); eauto. Qed.

Lemma order_by_created_desc_nil l : order_by_created_desc l = [] <-> l = [].
Proof.
  split; [|now intros ->].
  destruct l as [|r l]; [done|]. simpl.
  destruct (insert_desc_cons r (order_by_created_desc l)) as (x & l' & ->).
  discriminate.
Qed.

Lemma session_join_elem e fid w r :
  r ∈ session_join e fid w <->
  exists s u, s ∈ user_sessions w /\ u ∈ users w
              /\ s_facebook_id s = u_facebook_id u
              /\ s_facebook_id s = fid
              /\ CURRENT_TIMESTAMP e < s_expires_at s
              /\ r = (s_expires_at s, s_created_at s).
Proof.
  unfold session_join. rewrite list_elem_of_In, in_flat_map. split.
  - intros (s & Hs & Hr). apply in_flat_map in Hr as (u & Hu & Hr).
    destruct (String.eqb_spec (s_facebook_id s) (u_facebook_id u)) as [E1|];
      [|destruct Hr].
    destruct (String.eqb_spec (s_facebook_id s) fid) as [E2|]; [|destruct Hr].
    destruct (Z.ltb_spec (CURRENT_TIMESTAMP e) (s_expires_at s)) as [E3|];
      [|destruct Hr].
    destruct Hr as [<-|[]]. exists s, u.
    rewrite !list_elem_of_In. auto 10.
  - intros (s & u & Hs & Hu & E1 & E2 & E3 & ->). exists s.
    rewrite <- list_elem_of_In. split; [done|].
    apply in_flat_map. exists u. rewrite <- list_elem_of_In. split; [done|].
    rewrite <- E1, E2, !String.eqb_refl.
    apply Z.ltb_lt in E3. rewrite E3. now left.
Qed.

Lemma is_user_authenticated_true e fid w :
  is_user_authenticated e fid w = true <->
  bound fid w /\ has_unexpired_session e fid w.
Proof.
  unfold is_user_authenticated.
  destruct (order_by_created_desc (session_join e fid w)) as [|r l] eqn:E.
  - apply (proj1 (order_by_created_desc_nil _)) in E. split; [done|].
    intros [(u & Hu & Eu) (s & Hs & Es & Ht)]. exfalso.
    assert (H : (s_expires_at s, s_created_at s) ∈ session_join e fid w).
    { apply session_join_elem. exists s, u. subst fid. auto 10. }
    rewrite E in H. inversion H.
  - split; [intros _|done].
    destruct (session_join e fid w) as [|r' l'] eqn:E'; [done|].
    assert (H : r' ∈ session_join e fid w) by (rewrite E'; left).
    apply session_join_elem in H as (s & u & Hs & Hu & E1 & E2 & E3 & _).
    split; [exists u | exists s]; split; auto; congruence.
Qed.

Lemma is_user_authenticated_false e fid w :
  is_user_authenticated e fid w = false <->
  ~ (bound fid w /\ has_unexpired_session e fid w).
Proof.
  rewrite <- is_user_authenticated_true.
  destruct (is_user_authenticated e fid w); split; done.
Qed.

(** The check reads the [users] and [user_sessions] tables only. *)
Lemma is_user_authenticated_frame e fid w w' :
  users w' = users w -> user_sessions w' = user_sessions w ->
  is_user_authenticated e fid w' = is_user_authenticated e fid w.
Proof.
  intros Hu Hs. unfold is_user_authenticated, session_join.
  now rewrite Hu, Hs.
Qed.

End Sessions.

(** ** The credential store *)
Section Credentials.

Context {lib : Library}.


Lemma authenticate_user_invalid e fid username password w :
  credentials_valid username password w = false ->
  authenticate_user e fid username password w
  = (Return (false, "Invalid credentials"), w).
Proof.
  unfold credentials_valid, stored_row, authenticate_user.
  destruct (head _) as [row|]; [|done]. now intros ->.
Qed.

Lemma authenticate_user_valid e fid username password w :
  credentials_valid username password w = true ->
  authenticate_user e fid username password w
  = if (1 <? count_facebook_id fid
               (update_login e fid username (users w)))%nat
    then (Raise (IntegrityError "UNIQUE constraint failed: users.facebook_id"),
          w)
    else (Return (true, "Authentication successful"),
          logged_in e fid username w).
Proof.
  unfold credentials_valid, stored_row, authenticate_user.
  destruct (head _) as [row|]; [|done]. now intros ->.
Qed.

Lemma authenticate_user_false_inv e fid username password w msg w' :
  authenticate_user e fid username password w = (Return (false, msg), w') ->
  w' = w /\ msg = "Invalid credentials"
  /\ credentials_valid username password w = false.
Proof.
  destruct (credentials_valid username password w) eqn:E.
  - rewrite authenticate_user_valid by done. destruct (_ <? _)%nat; done.
  - rewrite authenticate_user_invalid by done. intros [= <- <-]. done.
Qed.

Lemma authenticate_user_true_inv e fid username password w msg w' :
  authenticate_user e fid username password w = (Return (true, msg), w') ->
  w' = logged_in e fid username w /\ msg = "Authentication successful"
  /\ credentials_valid username password w = true.
Proof.
  destruct (credentials_valid username password w) eqn:E.
  - rewrite authenticate_user_valid by done.
    destruct (_ <? _)%nat; [done|]. intros [= <- <-]. done.
  - rewrite authenticate_user_invalid by done. done.
Qed.

Lemma stored_row_None username w :
  stored_row username w = None <->
  forall u, u ∈ users w -> u_username u <> username.
Proof.
  unfold stored_row. rewrite head_None. split.
  - intros H u Hu E. revert Hu. eapply filter_nil_not_elem_of; [exact H|exact E].
  - intros H. destruct (filter _ _) as [|u l] eqn:E; [done|].
    assert (Hu : u ∈ filter (fun u => u_username u = username) (users w))
      by (rewrite E; left).
    apply list_elem_of_filter in Hu as [Hn Hu]. now apply H in Hu.
Qed.

Lemma stored_row_Some username w row :
  stored_row username w = Some row ->
  row ∈ users w /\ u_username row = username.
Proof.
  unfold stored_row. intros H%head_Some_elem_of.
  apply list_elem_of_filter in H. tauto.
Qed.

Lemma logged_in_bound e fid username password w :
  credentials_valid username password w = true ->
  bound fid (logged_in e fid username w).
Proof.
  unfold credentials_valid. destruct (stored_row username w) as [row|] eqn:E;
    [intros _|done].
  apply stored_row_Some in E as [Hin Hn].
  exists (mk_user fid (u_username row) (u_password_hash row)
                  (u_is_authenticated row) (u_created_at row)
                  (Some (CURRENT_TIMESTAMP e))).
  split; [|done]. simpl. unfold update_login.
  apply list_elem_of_In, in_map_iff. exists row.
  rewrite Hn, String.eqb_refl. split; [done|]. now apply list_elem_of_In.
Qed.

End Credentials.

(** ** The counter store *)
Section Counters.

Lemma modify_item_count_new e item_id operation amount w :
  items w !! item_id = None ->
  exists message w',
    modify_item_count e item_id operation amount w
    = (Return (true, message, first_count operation), w')
    /\ items w'
       = <[item_id := mk_item item_id (first_count operation)
                              (CURRENT_TIMESTAMP e) (CURRENT_TIMESTAMP e)]>
           (items w)
    /\ users w' = users w /\ user_sessions w' = user_sessions w
    /\ command_logs w' = command_logs w.
Proof.
  intros H. unfold modify_item_count. rewrite H. eauto 10.
Qed.

Lemma modify_item_count_existing e item_id operation amount w row :
  items w !! item_id = Some row ->
  fits_sqlite_integer (next_count operation (i_count row) amount) = true ->
  exists message w',
    modify_item_count e item_id operation amount w
    = (Return (true, message, next_count operation (i_count row) amount), w')
    /\ items w'
       = <[item_id := mk_item (i_name row)
                              (next_count operation (i_count row) amount)
                              (i_created_at row) (CURRENT_TIMESTAMP e)]>
           (items w)
    /\ users w' = users w /\ user_sessions w' = user_sessions w
    /\ command_logs w' = command_logs w.
Proof.
  intros H Hfit. unfold modify_item_count. rewrite H.
  fold (next_count operation (i_count row) amount). rewrite Hfit. eauto 10.
Qed.

Lemma modify_item_count_overflow e item_id operation amount w row :
  items w !! item_id = Some row ->
  fits_sqlite_integer (next_count operation (i_count row) amount) = false ->
  modify_item_count e item_id operation amount w
  = (Raise (OverflowError "Python int too large to convert to SQLite INTEGER"),
     w).
Proof.
  intros H Hfit. unfold modify_item_count. rewrite H.
  fold (next_count operation (i_count row) amount). now rewrite Hfit.
Qed.

(** Whatever the outcome, only the row of [item_id] can change, and
    neither the other tables. *)
Lemma modify_item_count_frame e item_id operation amount w :
  let w' := snd (modify_item_count e item_id operation amount w) in
  (forall k, k <> item_id -> items w' !! k = items w !! k)
  /\ users w' = users w /\ user_sessions w' = user_sessions w
  /\ command_logs w' = command_logs w.
Proof.
  unfold modify_item_count.
  destruct (items w !! item_id) as [row|]; [destruct (fits_sqlite_integer _)|];
    simpl; (split; [|done]); intros k Hk; try done;
    now rewrite lookup_insert_ne.
Qed.

(** The outcome depends on the [items] table only. *)
Lemma modify_item_count_items e item_id operation amount w1 w2 :
  items w1 = items w2 ->
  fst (modify_item_count e item_id operation amount w1)
  = fst (modify_item_count e item_id operation amount w2)
  /\ items (snd (modify_item_count e item_id operation amount w1))
     = items (snd (modify_item_count e item_id operation amount w2)).
Proof.
  intros H. unfold modify_item_count. rewrite H.
  destruct (items w2 !! item_id) as [row|]; [destruct (fits_sqlite_integer _)|];
    simpl; now rewrite ?H.
Qed.

End Counters.

(** ** The commands of an authenticated sender *)
Section Dispatch.

Context {lib : Library}.

(** Decide the comparisons of two literal strings in the goal. *)
Ltac eval_eqb :=
  repeat match goal with
         | |- context [String.eqb ?a ?b] =>
             let v := eval vm_compute in (String.eqb a b) in
             change (String.eqb a b) with v
         end;
  cbv iota.

Lemma dispatch_unfold_bracket e fid t w :
  dispatch e fid ("[" +:+ t +:+ "]") w
  = (let command := Py.lower t in
     if String.eqb command "statistics" then
       try_except
         (report_path <- generate_statistics_report e fid ;;
          send_file e fid report_path ;;
          log_command e fid "statistics" None true None ;;
          ret "Statistics report generated and sent!")
         (fun ex =>
            log_command e fid "statistics" None false
                        (Some (str_exception ex)) ;;
            ret ("Error generating report: " +:+ str_exception ex))
     else if String.eqb command "add" then
       r <- modify_item_count e "default_item" "add" 1 ;;
       let '(success, message, new_count) := r in
       log_command e fid "add" (Some "default_item") success None ;;
       ret (message +:+ ". New count: " +:+ Py.str_int new_count)
     else if String.eqb command "subtract" then
       r <- modify_item_count e "default_item" "subtract" 1 ;;
       let '(success, message, new_count) := r in
       log_command e fid "subtract" (Some "default_item") success None ;;
       ret (message +:+ ". New count: " +:+ Py.str_int new_count)
     else if String.eqb command "count" then
       count <- gets (get_item_count "default_item") ;;
       let count := match count with Some c => c | None => 0 end in
       log_command e fid "count" (Some "default_item") true None ;;
       ret ("Current count for default_item: " +:+ Py.str_int count)
     else
       log_command e fid "set_item" (Some command) true None ;;
       ret ("Item '" +:+ command
            +:+ "' selected. Use [add], [subtract], or [count] to interact with it."))%py
      w.
Proof.
  unfold dispatch. now rewrite bracketed_bracket, PyFacts.slice_bracket.
Qed.

Lemma dispatch_select e fid t w :
  is_keyword (Py.lower t) = false ->
  dispatch e fid ("[" +:+ t +:+ "]") w
  = (Return ("Item '" +:+ Py.lower t
             +:+ "' selected. Use [add], [subtract], or [count] to interact with it."),
     logged (audit_row e fid "set_item" (Some (Py.lower t)) true None) w).
Proof.
  unfold is_keyword. intros H. rewrite dispatch_unfold_bracket. cbv zeta.
  repeat (apply orb_false_elim in H as [H ?]).
  now repeat match goal with E : String.eqb _ _ = false |- _ => rewrite E; clear E end.
Qed.

(** The world after a modification of the default counter and its audit
    row; [None] when the modification raises. *)
Lemma dispatch_modify e fid (operation : string) w :
  operation = "add" \/ operation = "subtract" ->
  dispatch e fid ("[" +:+ operation +:+ "]") w
  = match modify_item_count e "default_item" operation 1 w with
    | (Return (success, message, new_count), w1) =>
        (Return (message +:+ ". New count: " +:+ Py.str_int new_count),
         logged (audit_row e fid operation (Some "default_item") success None)
                w1)
    | (Raise ex, w1) => (Raise ex, w1)
    end.
Proof.
  intros [-> | ->]; rewrite dispatch_unfold_bracket; cbv zeta.
  - change (Py.lower "add") with "add". eval_eqb. unfold bind at 1.
    destruct (modify_item_count _ _ _ _ _) as [[[[s m] n]|ex] w1]; reflexivity.
  - change (Py.lower "subtract") with "subtract". eval_eqb. unfold bind at 1.
    destruct (modify_item_count _ _ _ _ _) as [[[[s m] n]|ex] w1]; reflexivity.
Qed.

Lemma dispatch_count e fid w :
  dispatch e fid "[count]" w
  = (Return ("Current count for default_item: "
             +:+ Py.str_int (default 0 (get_item_count "default_item" w))),
     logged (audit_row e fid "count" (Some "default_item") true None) w).
Proof.
  change "[count]" with ("[" +:+ "count" +:+ "]").
  rewrite dispatch_unfold_bracket. cbv zeta.
  change (Py.lower "count") with "count". eval_eqb.
  unfold bind, gets. destruct (get_item_count "default_item" w); reflexivity.
Qed.

Lemma dispatch_statistics e fid w :
  dispatch e fid "[statistics]" w
  = match report_io e with
    | Some msg =>
        (Return ("Error generating report: " +:+ msg),
         logged (audit_row e fid "statistics" None false (Some msg)) w)
    | None =>
        let w1 := set_uploads (uploads w ++ [(fid, report_path e)])
                    (set_report_files (report_files w ++ [report_path e]) w) in
        match post_file e with
        | PostRaised msg =>
            (Return ("Error generating report: " +:+ msg),
             logged (audit_row e fid "statistics" None false (Some msg)) w1)
        | Responded status_code text =>
            (Return "Statistics report generated and sent!",
             logged (audit_row e fid "statistics" None true None)
               (if status_code =? 200 then w1
                else set_logger_errors
                       (logger_errors w1 ++ ["Failed to send file: " +:+ text])
                       w1))
        end
    end.
Proof.
  change "[statistics]" with ("[" +:+ "statistics" +:+ "]").
  rewrite dispatch_unfold_bracket. cbv zeta.
  change (Py.lower "statistics") with "statistics". eval_eqb.
  unfold try_except, generate_statistics_report, send_file, report_path.
  destruct (report_io e) as [msg|]; [reflexivity|].
  destruct (post_file e) as [status_code text|msg]; [|reflexivity].
  unfold bind, modify. destruct (status_code =? 200); reflexivity.
Qed.

End Dispatch.

Section DispatchEffects.

Context {lib : Library}.

Lemma logged_appends r w0 w :
  command_logs w = command_logs w0 ->
  appends_one_record (l_facebook_id r) w0 (logged r w).
Proof. intros H. exists r. simpl. now rewrite H. Qed.

(** A dispatched command leaves [users] and [user_sessions] alone and,
    when it returns, has written exactly one audit row. *)
Lemma dispatch_effects e fid s w :
  let res := dispatch e fid s w in
  users (snd res) = users w /\ user_sessions (snd res) = user_sessions w
  /\ match fst res with
     | Return _ => appends_one_record fid w (snd res)
     | Raise _ => command_logs (snd res) = command_logs w
     end.
Proof.
  unfold dispatch. destruct (bracketed s).
  2:{ simpl. repeat split. now eexists. }
  cbv zeta. set (command := Py.lower (Py.slice_1_m1 s)).
  destruct (String.eqb command "statistics").
  { unfold try_except, generate_statistics_report, send_file.
    destruct (report_io e) as [msg|].
    { simpl. repeat split. now eexists. }
    destruct (post_file e) as [status_code text|msg].
    - destruct (status_code =? 200); simpl; repeat split; now eexists.
    - simpl. repeat split. now eexists. }
  assert (Hmod : forall operation : string,
    let res :=
      (r <- modify_item_count e "default_item" operation 1 ;;
       let '(success, message, new_count) := r in
       log_command e fid operation (Some "default_item") success None ;;
       ret (message +:+ ". New count: " +:+ Py.str_int new_count))%py w in
    users (snd res) = users w /\ user_sessions (snd res) = user_sessions w
    /\ match fst res with
       | Return _ => appends_one_record fid w (snd res)
       | Raise _ => command_logs (snd res) = command_logs w
       end).
  { intros operation.
    pose proof (modify_item_count_frame e "default_item" operation 1 w) as F.
    cbv zeta in F. unfold bind at 1.
    destruct (modify_item_count e "default_item" operation 1 w)
      as [[[[success message] new_count]|ex] w1]; simpl in F |- *;
      destruct F as (_ & Fu & Fs & Fl); repeat split; auto.
    eexists. simpl. rewrite Fl. eauto. }
  destruct (String.eqb command "add"); [apply Hmod|].
  destruct (String.eqb command "subtract"); [apply Hmod|].
  destruct (String.eqb command "count"); simpl; repeat split; now eexists.
Qed.

(** Nothing deletes a session: a request keeps every row of
    [user_sessions]. *)
Lemma process_command_keeps_sessions e fid text w s :
  s ∈ user_sessions w -> s ∈ user_sessions (snd (process_command e fid text w)).
Proof.
  intros Hs.
  destruct (decide (Py.strip text = "[help]")) as [Hh|Hh].
  { now rewrite process_command_help. }
  destruct (is_user_authenticated e fid w) eqn:Ha.
  { rewrite process_command_dispatch by done.
    destruct (dispatch_effects e fid (Py.strip text) w) as (_ & -> & _). done. }
  destruct (bracketed (Py.strip text)) eqn:Hb.
  2:{ now rewrite process_command_rejected. }
  destruct (bracketed_inv _ Hb) as [t Ht].
  assert (t <> "help") by (intros ->; now rewrite Ht in Hh).
  rewrite (process_command_login e fid text t) by done.
  destruct (credentials_valid t t w) eqn:Hc.
  - rewrite authenticate_user_valid by done.
    destruct (_ <? _)%nat; simpl; [done|]. apply elem_of_app. now left.
  - now rewrite authenticate_user_invalid.
Qed.

End DispatchEffects.

(** * Properties of the specification *)

(** ** Audit log *)
Section AuditLog.

Context {lib : Library}.

(** C1 (amended).  One call to [process_command] appends at most one
    audit row, and never touches the earlier ones.  It appends exactly
    one, for the sender, when the call returns and the trimmed input is
    [[help]], or the sender is authenticated, or the reply is the success
    message of a login.  It appends none when the input of an
    unauthenticated sender is turned down (failed login, or text that is
    not bracketed), and none when the call raises. *)
Theorem audit_record_per_command e fid text w :
  let res := process_command e fid text w in
  (forall reply, fst res = Return reply ->
     Py.strip text = "[help]" \/ is_user_authenticated e fid w = true
     \/ reply = "Authentication successful" ->
     appends_one_record fid w (snd res))
  /\ (forall reply, fst res = Return reply ->
        Py.strip text <> "[help]" -> is_user_authenticated e fid w = false ->
        reply <> "Authentication successful" ->
        command_logs (snd res) = command_logs w)
  /\ (forall ex, fst res = Raise ex -> command_logs (snd res) = command_logs w).
Proof.
  cbv zeta.
  destruct (decide (Py.strip text = "[help]")) as [Hh|Hh].
  { rewrite process_command_help by done. simpl. repeat split; try done.
    intros _ _ _. now eexists. }
  destruct (is_user_authenticated e fid w) eqn:Ha.
  { rewrite process_command_dispatch by done.
    destruct (dispatch_effects e fid (Py.strip text) w) as (_ & _ & H).
    destruct (fst (dispatch e fid (Py.strip text) w)); repeat split; done. }
  destruct (bracketed (Py.strip text)) eqn:Hb.
  2:{ rewrite process_command_rejected by done. simpl.
      repeat split; try done. intros reply [= <-] [?|[?|?]]; done. }
  destruct (bracketed_inv _ Hb) as [t Ht].
  assert (t <> "help") by (intros ->; now rewrite Ht in Hh).
  rewrite (process_command_login e fid text t) by done.
  destruct (credentials_valid t t w) eqn:Hc.
  - rewrite authenticate_user_valid by done.
    destruct (_ <? _)%nat; simpl; [done|]. repeat split; try done.
    + intros _ _ _. now eexists.
    + intros reply [= <-]. done.
  - rewrite authenticate_user_invalid by done. simpl.
    repeat split; try done. intros reply [= <-] [?|[?|?]]; done.
Qed.

End AuditLog.

Lemma audit_record_per_command_witness :
  appends_one_record "X" Sample.scenario_db
    (snd (Sample.process_command (Sample.at_time 0) "X" "[admin]"
                                 Sample.scenario_db)).
Proof.
  exact (proj1 (audit_record_per_command (lib := Sample.library)
                  (Sample.at_time 0) "X" "[admin]" Sample.scenario_db)
               "Authentication successful" eq_refl
               (or_intror (or_intror eq_refl))).
Defined.

(** C1, as stated, fails: the text [hello] of a sender without a session
    is answered, and nothing is written to [command_logs]. *)
Lemma rejected_command_leaves_no_audit_record :
  let res := Sample.process_command (Sample.at_time 0) "X" "hello"
                                    Sample.fresh_db in
  is_user_authenticated (Sample.at_time 0) "X" Sample.fresh_db = false
  /\ fst res
     = Return "You must be authenticated to use this command. Please login first."
  /\ command_logs (snd res) = command_logs Sample.fresh_db
  /\ ~ (exists r, command_logs (snd res) = command_logs Sample.fresh_db ++ [r]).
Proof.
  cbv zeta. repeat split; try reflexivity.
  intros [r H]. vm_compute in H. discriminate H.
Qed.

(** ** Session ledger *)
Section SessionLedger.

Context {lib : Library}.

(** C2 (amended).  Let a login issue a session to [X] at time [T] (the
    reading of [datetime.now()]), with [D] = 24 hours.  The session row
    expires at [T + D] and a user row is bound to [X].  At any later state,
    which still holds the sessions written so far, and any check time [T']
    (the reading of [CURRENT_TIMESTAMP]): [X] is authenticated at
    [T' < T + D] as long as some user row is bound to [X]; [X] is
    not authenticated once no user row is bound to [X], whatever the
    clock; [X] is not authenticated at [T' >= T + D] when no session of
    [X] expires later than [T + D].  The answer is read off the [users] and
    [user_sessions] tables and the clock: states that agree on them agree
    on it. *)
Theorem session_window e0 X username password w msg w1 :
  authenticate_user e0 X username password w = (Return (true, msg), w1) ->
  let T := datetime_now e0 in
  let D := timedelta_hours 24 in
  new_session e0 X ∈ user_sessions w1
  /\ s_expires_at (new_session e0 X) = T + D
  /\ bound X w1
  /\ forall e' w2,
       (forall s, s ∈ user_sessions w1 -> s ∈ user_sessions w2) ->
       (bound X w2 -> CURRENT_TIMESTAMP e' < T + D ->
        is_user_authenticated e' X w2 = true)
       /\ (~ bound X w2 -> is_user_authenticated e' X w2 = false)
       /\ (T + D <= CURRENT_TIMESTAMP e' ->
           (forall s, s ∈ user_sessions w2 -> s_facebook_id s = X ->
                      s_expires_at s <= T + D) ->
           is_user_authenticated e' X w2 = false)
       /\ (forall w3, users w3 = users w2 ->
                      user_sessions w3 = user_sessions w2 ->
                      is_user_authenticated e' X w3
                      = is_user_authenticated e' X w2).
Proof.
  intros H T D.
  apply authenticate_user_true_inv in H as (-> & -> & Hc).
  assert (Hin : new_session e0 X ∈ user_sessions (logged_in e0 X username w)).
  { simpl. apply elem_of_app. right. left. }
  repeat split; try done.
  - eapply logged_in_bound, Hc.
  - intros Hb Ht. apply is_user_authenticated_true. split; [done|].
    exists (new_session e0 X). auto.
  - intros Hb. apply is_user_authenticated_false. tauto.
  - intros Ht Hs. apply is_user_authenticated_false.
    intros [_ (s & Hs1 & Hs2 & Hs3)]. specialize (Hs s Hs1 Hs2). lia.
  - intros w3. apply is_user_authenticated_frame.
Qed.

End SessionLedger.

Lemma session_window_witness :
  is_user_authenticated (Sample.at_time (3600 * Sample.second)) "X"
                        Sample.after_login_X = true.
Proof.
  refine (proj1 (proj2 (proj2 (proj2
    (session_window (lib := Sample.library) (Sample.at_time 0) "X" "admin"
       "admin" Sample.scenario_db "Authentication successful" Sample.after_login_X
       _))) (Sample.at_time (3600 * Sample.second)) Sample.after_login_X _) _ _).
  - reflexivity.
  - intros s Hs. exact Hs.
  - exists (mk_user "X" "admin" (Sample.generate_password_hash "admin") 0 0
                    (Some 0)).
    split; [left | reflexivity].
  - vm_compute. reflexivity.
Defined.

(** C2, as stated, fails.  X logs in as admin at [T = 0]; one second later Y
    logs in as admin, which binds the user row to Y.  At [T' = 2] seconds X
    still holds the session that expires at [T + D], and nothing else was
    done to it, but X is no longer authenticated. *)
Lemma rebinding_ends_session :
  let T := 0 in
  let D := timedelta_hours 24 in
  let T' := 2 * Sample.second in
  fst (Sample.authenticate_user (Sample.at_time T) "X" "admin" "admin"
                                Sample.scenario_db)
  = Return (true, "Authentication successful")
  /\ filter (fun s => s_facebook_id s = "X") (user_sessions Sample.after_login_Y)
     = [mk_session "X" "sha256:X0" (T + D) 0]
  /\ T <= T' < T + D
  /\ is_user_authenticated (Sample.at_time Sample.second) "X" Sample.after_login_X
     = true
  /\ is_user_authenticated (Sample.at_time T') "X" Sample.after_login_Y = false.
Proof. vm_compute. repeat split; congruence. Qed.

(** ** The statistics command *)
Section Statistics.

Context {lib : Library}.

(** C3 (amended).  For an authenticated sender the input [[statistics]]
    appends exactly one audit row of command [statistics].  When the
    report is written and the upload gets a response, the file was
    written, its upload was attempted, the reply announces the report and
    the row has success = 1 whatever the status of the response; a status
    other than 200 only adds a line to the error log.  When writing the
    report raises, or the upload itself raises, the row has success = 0
    and carries the text of the exception, which is also the reply. *)
Theorem statistics_audit e fid text w :
  Py.strip text = "[statistics]" ->
  is_user_authenticated e fid w = true ->
  let written := set_report_files (report_files w ++ [report_path e]) w in
  let attempted := set_uploads (uploads w ++ [(fid, report_path e)]) written in
  match report_io e, post_file e with
  | None, Responded status_code body =>
      process_command e fid text w
      = (Return "Statistics report generated and sent!",
         logged (audit_row e fid "statistics" None true None)
           (if status_code =? 200 then attempted
            else set_logger_errors
                   (logger_errors w ++ ["Failed to send file: " +:+ body])
                   attempted))
  | None, PostRaised msg =>
      process_command e fid text w
      = (Return ("Error generating report: " +:+ msg),
         logged (audit_row e fid "statistics" None false (Some msg)) attempted)
  | Some msg, _ =>
      process_command e fid text w
      = (Return ("Error generating report: " +:+ msg),
         logged (audit_row e fid "statistics" None false (Some msg)) w)
  end.
Proof.
  intros Hs Ha. cbv zeta.
  rewrite process_command_dispatch by (rewrite ?Hs; done).
  rewrite Hs, dispatch_statistics.
  destruct (report_io e) as [msg|]; [reflexivity|].
  destruct (post_file e) as [status_code body|msg]; reflexivity.
Qed.

End Statistics.

(** The platform answers the upload with an error status: the command is
    still audited as a success, and the failure goes to the error log. *)
Lemma statistics_audit_witness :
  Sample.process_command
    (mk_env 60 60 None (Responded 400 "Bad Request")) "X" "[statistics]"
    Sample.after_login_X
  = (Return "Statistics report generated and sent!",
     logged (mk_log "X" "statistics" None 1 None 60)
       (set_logger_errors ["Failed to send file: Bad Request"]
          (set_uploads [("X", "reports/statistics_report_60.xlsx")]
             (set_report_files ["reports/statistics_report_60.xlsx"]
                Sample.after_login_X)))).
Proof.
  exact (statistics_audit (lib := Sample.library)
           (mk_env 60 60 None (Responded 400 "Bad Request")) "X" "[statistics]"
           Sample.after_login_X eq_refl eq_refl).
Defined.

(** C3, as stated, fails.  X is authenticated and sends [[statistics]]; the
    report is written and its upload is attempted, but the request raises
    (the connection is refused).  The audit row of the statistics command
    has success = 0 and carries the text of the delivery failure. *)
Lemma upload_exception_recorded_as_failure :
  let e := mk_env 60 60 None (PostRaised "Connection refused") in
  let res := Sample.process_command e "X" "[statistics]" Sample.after_login_X in
  is_user_authenticated e "X" Sample.after_login_X = true
  /\ report_files (snd res) = ["reports/statistics_report_60.xlsx"]
  /\ uploads (snd res) = [("X", "reports/statistics_report_60.xlsx")]
  /\ fst res = Return "Error generating report: Connection refused"
  /\ command_logs (snd res)
     = command_logs Sample.after_login_X
       ++ [mk_log "X" "statistics" None 0 (Some "Connection refused") 60].
Proof. vm_compute. repeat split. Qed.

(** ** Login *)
Section Login.

Context {lib : Library}.

(** C4.  For an unauthenticated sender and a trimmed input [[t]] other
    than [[help]], the interpreter calls [authenticate_user] with [t] as the
    username and as the password.  When the login succeeds, a session is
    issued for the sender, the login is audited and the reply is the
    success message; when it fails, the reply is the generic prompt and
    nothing changes. *)
Theorem bracketed_login e fid text t w :
  Py.strip text = "[" +:+ t +:+ "]" -> t <> "help" ->
  is_user_authenticated e fid w = false ->
  process_command e fid text w
  = match authenticate_user e fid t t w with
    | (Return (true, message), w1) =>
        (Return message, logged (audit_row e fid "login" (Some t) true None) w1)
    | (Return (false, _), w1) => (Return login_prompt, w1)
    | (Raise ex, w1) => (Raise ex, w1)
    end
  /\ (forall message w1,
        authenticate_user e fid t t w = (Return (true, message), w1) ->
        process_command e fid text w
        = (Return "Authentication successful",
           logged (audit_row e fid "login" (Some t) true None)
                  (logged_in e fid t w))
        /\ new_session e fid ∈ user_sessions (snd (process_command e fid text w))
        /\ s_expires_at (new_session e fid)
           = datetime_now e + timedelta_hours 24)
  /\ (forall message w1,
        authenticate_user e fid t t w = (Return (false, message), w1) ->
        process_command e fid text w = (Return login_prompt, w)).
Proof.
  intros Hs Ht Ha. rewrite (process_command_login e fid text t) by done.
  split; [reflexivity|]. split.
  - intros message w1 H. rewrite H.
    apply authenticate_user_true_inv in H as (-> & -> & _).
    repeat split. simpl. apply elem_of_app. right. left.
  - intros message w1 H. rewrite H.
    now apply authenticate_user_false_inv in H as (-> & _ & _).
Qed.

(** C6.  An unknown username and a known username with a password that
    does not match its hash get the same answer from [authenticate_user]:
    [False] with the message "Invalid credentials", the store unchanged.
    The reply of the interpreter to a bracketed login with the unknown
    name, or with the known name when it is not its own password, is the
    same prompt and leaves the store unchanged. *)
Theorem invalid_credentials_indistinguishable e fid w unknown known p1 p2 :
  (forall u, u ∈ users w -> u_username u <> unknown) ->
  (exists u, u ∈ users w /\ u_username u = known) ->
  (forall u, u ∈ users w -> u_username u = known ->
             check_password_hash (u_password_hash u) p2 = false) ->
  authenticate_user e fid unknown p1 w
  = (Return (false, "Invalid credentials"), w)
  /\ authenticate_user e fid known p2 w
     = (Return (false, "Invalid credentials"), w)
  /\ (forall text t,
        Py.strip text = "[" +:+ t +:+ "]" -> t <> "help" ->
        is_user_authenticated e fid w = false ->
        t = unknown \/ (t = known /\ p2 = known) ->
        process_command e fid text w = (Return login_prompt, w)).
Proof.
  intros Hu Hk Hp.
  assert (H1 : forall p, credentials_valid unknown p w = false).
  { intros p. unfold credentials_valid.
    now rewrite (proj2 (stored_row_None unknown w) Hu). }
  assert (H2 : credentials_valid known p2 w = false).
  { unfold credentials_valid.
    destruct (stored_row known w) as [row|] eqn:E; [|done].
    apply stored_row_Some in E as [Hin Hn]. now apply Hp. }
  split; [now apply authenticate_user_invalid|].
  split; [now apply authenticate_user_invalid|].
  intros text t Hs Hh Ha Ht.
  rewrite (process_command_login e fid text t) by done.
  destruct Ht as [->|[-> ->]]; now rewrite authenticate_user_invalid.
Qed.

(** C9.  When [authenticate_user] returns [False], the store is the one it
    started from: no session row was inserted and no user row changed, so
    the binding and the last login of every user are what they were.  It
    returns [False] only for an unknown username or a hash mismatch. *)
Theorem failed_authentication_atomic e fid username password w msg w' :
  authenticate_user e fid username password w = (Return (false, msg), w') ->
  w' = w
  /\ user_sessions w' = user_sessions w
  /\ users w' = users w
  /\ (stored_row username w = None
      \/ exists row, stored_row username w = Some row
                     /\ check_password_hash (u_password_hash row) password
                        = false).
Proof.
  intros H. apply authenticate_user_false_inv in H as (-> & _ & Hc).
  repeat split. unfold credentials_valid in Hc.
  destruct (stored_row username w) as [row|]; eauto.
Qed.

End Login.

Lemma bracketed_login_witness :
  Sample.process_command (Sample.at_time 0) "X" " [admin] " Sample.scenario_db
  = (Return "Authentication successful",
     logged (mk_log "X" "login" (Some "admin") 1 None 0) Sample.after_login_X).
Proof.
  exact (proj1 (bracketed_login (lib := Sample.library) (Sample.at_time 0) "X"
                  " [admin] " "admin" Sample.scenario_db eq_refl
                  ltac:(discriminate) eq_refl)).
Defined.

Lemma invalid_credentials_indistinguishable_witness :
  Sample.authenticate_user (Sample.at_time 0) "X" "nobody" "admin123"
                           Sample.fresh_db
  = Sample.authenticate_user (Sample.at_time 0) "X" "admin" "letmein"
                             Sample.fresh_db.
Proof.
  destruct (invalid_credentials_indistinguishable (lib := Sample.library)
              (Sample.at_time 0) "X" Sample.fresh_db "nobody" "admin"
              "admin123" "letmein") as (H1 & H2 & _).
  - intros u Hu. apply list_elem_of_singleton in Hu as ->. discriminate.
  - eexists. split; [left|reflexivity].
  - intros u Hu _. apply list_elem_of_singleton in Hu as ->. reflexivity.
  - unfold Sample.authenticate_user. rewrite H1, H2. reflexivity.
Defined.

Lemma failed_authentication_atomic_witness :
  user_sessions (snd (Sample.authenticate_user (Sample.at_time 0) "X" "admin"
                        "admin" Sample.fresh_db))
  = user_sessions Sample.fresh_db.
Proof.
  exact (proj1 (proj2
    (failed_authentication_atomic (lib := Sample.library) (Sample.at_time 0)
       "X" "admin" "admin" Sample.fresh_db "Invalid credentials" _ eq_refl))).
Defined.

(** ** Counter store *)
Section CounterStore.

(** C5 (amended).  For every item id, operation and amount: if the item
    exists with count [c], the stored count becomes [c + amount] on [add]
    and [max 0 (c - amount)] on any other operation, provided the new count
    fits an [INTEGER] column; if it does not fit, the call raises and
    stores nothing.  If the item does not exist it is created with count 1
    on [add] and count 0 otherwise.  No other item changes.  The new count
    is never negative on creation or on a decrement; on an increment it is
    not negative when neither the prior count nor the amount is. *)
Theorem modify_item_count_post e item_id operation amount w :
  let res := modify_item_count e item_id operation amount w in
  match items w !! item_id with
  | Some row =>
      let c := i_count row in
      (operation = "add" -> fits_sqlite_integer (c + amount) = true ->
       (exists message, fst res = Return (true, message, c + amount))
       /\ get_item_count item_id (snd res) = Some (c + amount)
       /\ (0 <= c -> 0 <= amount -> 0 <= c + amount))
      /\ (operation <> "add" ->
          fits_sqlite_integer (Z.max 0 (c - amount)) = true ->
          (exists message,
             fst res = Return (true, message, Z.max 0 (c - amount)))
          /\ get_item_count item_id (snd res) = Some (Z.max 0 (c - amount))
          /\ 0 <= Z.max 0 (c - amount))
      /\ (fits_sqlite_integer
            (if String.eqb operation "add" then c + amount
             else Z.max 0 (c - amount)) = false ->
          (exists msg, fst res = Raise (OverflowError msg)) /\ snd res = w)
  | None =>
      (operation = "add" ->
       (exists message, fst res = Return (true, message, 1))
       /\ get_item_count item_id (snd res) = Some 1)
      /\ (operation <> "add" ->
          (exists message, fst res = Return (true, message, 0))
          /\ get_item_count item_id (snd res) = Some 0)
  end
  /\ (forall k, k <> item_id ->
                get_item_count k (snd res) = get_item_count k w).
Proof.
  cbv zeta. split.
  2:{ intros k Hk. unfold get_item_count.
      now rewrite (proj1 (modify_item_count_frame e item_id operation amount w)). }
  destruct (items w !! item_id) as [row|] eqn:E.
  - split; [|split].
    + intros -> Hfit.
      destruct (modify_item_count_existing e item_id "add" amount w row E Hfit)
        as (m & w' & Hr & Hi & _).
      rewrite Hr. simpl. split; [eauto|]. split; [|lia].
      unfold get_item_count. now rewrite Hi, lookup_insert_eq.
    + intros Hop%String.eqb_neq Hfit.
      assert (Hn : next_count operation (i_count row) amount
                   = Z.max 0 (i_count row - amount))
        by (unfold next_count; now rewrite Hop).
      rewrite <- Hn in Hfit.
      destruct (modify_item_count_existing e item_id operation amount w row E
                  Hfit) as (m & w' & Hr & Hi & _).
      rewrite Hr, <- Hn. simpl. split; [eauto|]. split; [|lia].
      unfold get_item_count. now rewrite Hi, lookup_insert_eq.
    + intros Hfit.
      rewrite (modify_item_count_overflow e item_id operation amount w row E
                 Hfit). eauto.
  - destruct (modify_item_count_new e item_id operation amount w E)
      as (m & w' & Hr & Hi & _).
    rewrite Hr. unfold get_item_count. simpl. rewrite Hi, lookup_insert_eq.
    simpl. unfold first_count. split.
    + intros ->. split; eauto.
    + intros H%String.eqb_neq. rewrite H. split; eauto.
Qed.

End CounterStore.

Lemma modify_item_count_post_witness :
  get_item_count "widget"
    (snd (modify_item_count (Sample.at_time 0) "widget" "subtract" 5
                            (Sample.counter_db 3)))
  = Some 0.
Proof.
  pose proof (proj1 (modify_item_count_post (Sample.at_time 0) "widget"
                       "subtract" 5 (Sample.counter_db 3))) as H.
  change (items (Sample.counter_db 3) !! "widget")
    with (Some (mk_item "widget" 3 0 0)) in H.
  destruct H as (_ & H & _).
  destruct H as (_ & H & _); [discriminate|reflexivity|exact H].
Defined.

(** C5, as stated, fails on its last part: adding the amount -5 to an
    existing counter at 0 stores -5.  Its first part fails outside the range
    of the column: adding 1 to a counter at [2^63 - 1] raises and stores
    nothing. *)
Lemma negative_amount_gives_negative_count :
  let w := Sample.counter_db 0 in
  let res := modify_item_count (Sample.at_time 0) "widget" "add" (-5) w in
  get_item_count "widget" w = Some 0
  /\ fst res = Return (true, "Item widget added successfully", -5)
  /\ get_item_count "widget" (snd res) = Some (-5)
  /\ let w := Sample.counter_db (2 ^ 63 - 1) in
     let res := modify_item_count (Sample.at_time 0) "widget" "add" 1 w in
     fst res
     = Raise (OverflowError "Python int too large to convert to SQLite INTEGER")
     /\ get_item_count "widget" (snd res) = Some (2 ^ 63 - 1).
Proof. vm_compute. repeat split. Qed.

(** ** The interpreter *)
Section Interpreter.

Context {lib : Library}.

(** C7.  Whatever the sender and the state of its sessions, the trimmed
    input [[help]] is answered with the help text; no authentication
    check is involved, and the audit row written is a success. *)
Theorem help_always_answered e fid text w :
  Py.strip text = "[help]" ->
  process_command e fid text w
  = (Return help_text, logged (audit_row e fid "help" None true None) w)
  /\ l_success (audit_row e fid "help" None true None) = 1
  /\ l_error_message (audit_row e fid "help" None true None) = None.
Proof. intros H. now rewrite process_command_help. Qed.

(** C8.  For an authenticated sender, a trimmed input [[t]] that reaches
    the keyword dispatch (the literal [[help]] is answered before it) and
    whose lowercased keyword is none of
    statistics, add, subtract, count only appends the audit row of
    [set_item] and returns a reply: the state differs from the one before
    in [command_logs] alone, so no counter changed and no selection is
    kept.  A later [[add]], [[subtract]] or [[count]] of the sender gets
    the reply and leaves the counters it would have without the
    selection, and touches no counter but [default_item]. *)
Theorem select_item_frame e fid text t w :
  Py.strip text = "[" +:+ t +:+ "]" -> t <> "help" ->
  is_keyword (Py.lower t) = false ->
  is_user_authenticated e fid w = true ->
  let w' := logged (audit_row e fid "set_item" (Some (Py.lower t)) true None) w in
  process_command e fid text w
  = (Return ("Item '" +:+ Py.lower t
             +:+ "' selected. Use [add], [subtract], or [count] to interact with it."),
     w')
  /\ set_command_logs (command_logs w) w' = w
  /\ items w' = items w
  /\ forall e2 text2,
       is_user_authenticated e2 fid w = true ->
       Py.strip text2 = "[add]" \/ Py.strip text2 = "[subtract]"
       \/ Py.strip text2 = "[count]" ->
       let after_selection := process_command e2 fid text2 w' in
       let without_selection := process_command e2 fid text2 w in
       fst after_selection = fst without_selection
       /\ items (snd after_selection) = items (snd without_selection)
       /\ (forall k, k <> "default_item" ->
                     items (snd after_selection) !! k = items w !! k).
Proof.
  intros Hs Ht Hk Ha. cbv zeta. split; [|split; [|split]].
  - rewrite process_command_dispatch by (rewrite ?Hs, ?PyFacts.bracket_help; done).
    rewrite Hs. now apply dispatch_select.
  - now destruct w.
  - reflexivity.
  - intros e2 text2 Ha2 Ht2.
    set (w' := logged _ w).
    assert (Ha2' : is_user_authenticated e2 fid w' = true)
      by (rewrite <- Ha2; now apply is_user_authenticated_frame).
    assert (Hh : Py.strip text2 <> "[help]")
      by (destruct Ht2 as [->|[->| ->]]; discriminate).
    rewrite !process_command_dispatch by done.
    assert (Hmod : forall operation : string,
      operation = "add" \/ operation = "subtract" ->
      let a := dispatch e2 fid ("[" +:+ operation +:+ "]") w' in
      let b := dispatch e2 fid ("[" +:+ operation +:+ "]") w in
      fst a = fst b /\ items (snd a) = items (snd b)
      /\ (forall k, k <> "default_item" -> items (snd a) !! k = items w !! k)).
    { intros operation Hop. cbv zeta. rewrite !dispatch_modify by done.
      destruct (modify_item_count_items e2 "default_item" operation 1 w' w
                  eq_refl) as [E1 E2].
      pose proof (modify_item_count_frame e2 "default_item" operation 1 w')
        as (F & _). cbv zeta in F.
      destruct (modify_item_count e2 "default_item" operation 1 w')
        as [[[[s1 m1] n1]|ex1] w1];
        destruct (modify_item_count e2 "default_item" operation 1 w)
          as [[[[s2 m2] n2]|ex2] w2]; simpl in *; try done.
      all: by simplify_eq. }
    destruct Ht2 as [->|[->| ->]].
    + apply (Hmod "add"). now left.
    + apply (Hmod "subtract"). now right.
    + rewrite !dispatch_count. done.
Qed.

(** C10 (amended).  While [is_user_authenticated] holds for a sender --
    the sender has an unexpired session and a user row is bound to its id
    -- no input is treated as a login attempt: the call changes neither
    [users] nor [user_sessions], and a bracketed token that is not itself
    help or a keyword, such as the stored username admin, is dispatched as
    an item selection.  So a call that rebinds an identity or issues a
    session was made by a sender for whom [is_user_authenticated] was
    false. *)
Theorem no_login_while_authenticated e fid text w :
  let res := process_command e fid text w in
  (is_user_authenticated e fid w = true ->
   users (snd res) = users w /\ user_sessions (snd res) = user_sessions w
   /\ forall t,
        Py.strip text = "[" +:+ t +:+ "]" -> t <> "help" ->
        is_keyword (Py.lower t) = false ->
        res = (Return ("Item '" +:+ Py.lower t
                       +:+ "' selected. Use [add], [subtract], or [count] to interact with it."),
               logged (audit_row e fid "set_item" (Some (Py.lower t)) true None)
                      w))
  /\ (users (snd res) <> users w \/ user_sessions (snd res) <> user_sessions w ->
      is_user_authenticated e fid w = false).
Proof.
  cbv zeta.
  assert (H : is_user_authenticated e fid w = true ->
              users (snd (process_command e fid text w)) = users w
              /\ user_sessions (snd (process_command e fid text w))
                 = user_sessions w).
  { intros Ha. destruct (decide (Py.strip text = "[help]")) as [Hh|Hh].
    - now rewrite process_command_help.
    - rewrite process_command_dispatch by done.
      destruct (dispatch_effects e fid (Py.strip text) w) as (? & ? & _).
      done. }
  split.
  - intros Ha. destruct (H Ha) as [Hu Hs]. repeat split; try done.
    intros t Ht Hh Hk.
    rewrite process_command_dispatch by (rewrite ?Ht, ?PyFacts.bracket_help; done).
    rewrite Ht. now apply dispatch_select.
  - intros Hchg. destruct (is_user_authenticated e fid w); [|done].
    destruct (H eq_refl) as [Hu Hs]. tauto.
Qed.

End Interpreter.

Lemma help_always_answered_witness :
  Sample.process_command (Sample.at_time 0) "X" "  [help]" Sample.fresh_db
  = (Return help_text, logged (mk_log "X" "help" None 1 None 0) Sample.fresh_db).
Proof.
  exact (proj1 (help_always_answered (lib := Sample.library) (Sample.at_time 0)
                  "X" "  [help]" Sample.fresh_db eq_refl)).
Defined.

Lemma select_item_frame_witness :
  Sample.process_command (Sample.at_time 60) "X" "[Widget]" Sample.after_login_X
  = (Return "Item 'widget' selected. Use [add], [subtract], or [count] to interact with it.",
     logged (mk_log "X" "set_item" (Some "widget") 1 None 60) Sample.after_login_X).
Proof.
  exact (proj1 (select_item_frame (lib := Sample.library) (Sample.at_time 60)
                  "X" "[Widget]" "Widget" Sample.after_login_X eq_refl
                  ltac:(discriminate) eq_refl eq_refl)).
Defined.

Lemma no_login_while_authenticated_witness :
  Sample.process_command (Sample.at_time 60) "X" "[admin]" Sample.after_login_X
  = (Return "Item 'admin' selected. Use [add], [subtract], or [count] to interact with it.",
     logged (mk_log "X" "set_item" (Some "admin") 1 None 60) Sample.after_login_X).
Proof.
  exact (proj2 (proj2
    (proj1 (no_login_while_authenticated (lib := Sample.library)
              (Sample.at_time 60) "X" "[admin]" Sample.after_login_X) eq_refl))
    "admin" eq_refl ltac:(discriminate) eq_refl).
Defined.

(** C10, as stated, fails.  After Y logged in as admin, X still holds its
    unexpired session, yet [[admin]] from X is a login: it succeeds, binds
    the user row back to X and issues one more session.  And a stored
    username that is a keyword is not dispatched as an item selection:
    with a user named count, [[count]] from the authenticated X reads the
    counter. *)
Lemma login_with_unexpired_session :
  let e := Sample.at_time (2 * Sample.second) in
  let res := Sample.process_command e "X" "[admin]" Sample.after_login_Y in
  has_unexpired_session e "X" Sample.after_login_Y
  /\ map u_facebook_id (users Sample.after_login_Y) = ["Y"]
  /\ fst res = Return "Authentication successful"
  /\ map u_facebook_id (users (snd res)) = ["X"]
  /\ user_sessions (snd res)
     = user_sessions Sample.after_login_Y
       ++ [mk_session "X" "sha256:X2000000"
                      (2 * Sample.second + timedelta_hours 24)
                      (2 * Sample.second)]
  /\ let res := Sample.process_command e "X" "[count]"
                                       Sample.keyword_user_db in
     map u_username (users Sample.keyword_user_db) = ["admin"; "count"]
     /\ is_user_authenticated e "X" Sample.keyword_user_db = true
     /\ fst res = Return "Current count for default_item: 0"
     /\ command_logs (snd res)
        = [mk_log "X" "count" (Some "default_item") 1 None (2 * Sample.second)].
Proof.
  cbv zeta. split.
  - exists (mk_session "X" "sha256:X0" (timedelta_hours 24) 0).
    split; [left|]. vm_compute. done.
  - vm_compute. repeat split.
Qed.

(** * Further properties of the code *)

(** Decide the comparisons of two literal strings in the goal. *)
Ltac eval_eqb :=
  repeat match goal with
         | |- context [String.eqb ?a ?b] =>
             let v := eval vm_compute in (String.eqb a b) in
             change (String.eqb a b) with v
         end;
  cbv iota.

(** ** How a request can change the store *)
Section RequestCases.

Context {lib : Library}.

(** The four ways a request ends: the help text; nothing at all (a
    sender without a session whose text is no successful login); a login;
    the dispatch of an authenticated sender. *)
Lemma process_command_cases e fid text w :
  let res := process_command e fid text w in
  (Py.strip text = "[help]"
   /\ res = (Return help_text, logged (audit_row e fid "help" None true None) w))
  \/ (is_user_authenticated e fid w = false /\ snd res = w
      /\ fst res <> Return "Authentication successful")
  \/ (is_user_authenticated e fid w = false
      /\ exists t, Py.strip text = "[" +:+ t +:+ "]" /\ t <> "help"
                   /\ credentials_valid t t w = true
                   /\ (count_facebook_id fid
                         (update_login e fid t (users w)) <= 1)%nat
                   /\ res = (Return "Authentication successful",
                             logged (audit_row e fid "login" (Some t) true None)
                                    (logged_in e fid t w)))
  \/ (is_user_authenticated e fid w = true /\ Py.strip text <> "[help]"
      /\ res = dispatch e fid (Py.strip text) w).
Proof.
  cbv zeta.
  destruct (decide (Py.strip text = "[help]")) as [Hh|Hh].
  { left. split; [done|]. now apply process_command_help. }
  right. destruct (is_user_authenticated e fid w) eqn:Ha.
  { right. right. repeat split; try done. now apply process_command_dispatch. }
  destruct (bracketed (Py.strip text)) eqn:Hb.
  2:{ left. split; [done|]. now rewrite process_command_rejected. }
  destruct (bracketed_inv _ Hb) as [t Ht].
  assert (t <> "help") by (intros ->; now rewrite Ht in Hh).
  rewrite (process_command_login e fid text t) by done.
  destruct (credentials_valid t t w) eqn:Hc.
  - rewrite authenticate_user_valid by done.
    destruct (Nat.ltb_spec 1 (count_facebook_id fid
                                (update_login e fid t (users w))));
      [left; done|].
    right. left. split; [done|]. exists t. done.
  - left. split; [done|]. now rewrite authenticate_user_invalid.
Qed.

(** What [modify_item_count] returns is what [get_item_count] reads
    next, and its flag is always [True]. *)
Lemma modify_item_count_returns e item_id operation amount w flag message n w1 :
  modify_item_count e item_id operation amount w
  = (Return (flag, message, n), w1) ->
  flag = true
  /\ message = "Item " +:+ item_id +:+ " " +:+ operation +:+ "ed successfully"
  /\ get_item_count item_id w1 = Some n
  /\ n = match items w !! item_id with
         | Some row => next_count operation (i_count row) amount
         | None => first_count operation
         end.
Proof.
  unfold modify_item_count, get_item_count, next_count, first_count.
  destruct (items w !! item_id) as [row|].
  - destruct (fits_sqlite_integer _); [|done]. intros [= <- <- <- <-].
    simpl. now rewrite lookup_insert_eq.
  - intros [= <- <- <- <-]. simpl. now rewrite lookup_insert_eq.
Qed.

Lemma modify_item_count_nonnegative e item_id operation amount w :
  0 <= amount -> counts_nonnegative w ->
  counts_nonnegative (snd (modify_item_count e item_id operation amount w)).
Proof.
  intros Ha Hw k row'. unfold modify_item_count.
  destruct (items w !! item_id) as [row|] eqn:E.
  - destruct (fits_sqlite_integer _); simpl; [|apply Hw].
    destruct (decide (item_id = k)) as [->|Hk].
    + rewrite lookup_insert_eq. intros [= <-]. simpl.
      specialize (Hw _ _ E). destruct (String.eqb operation "add"); lia.
    + rewrite lookup_insert_ne by done. apply Hw.
  - simpl. destruct (decide (item_id = k)) as [->|Hk].
    + rewrite lookup_insert_eq. intros [= <-]. simpl.
      destruct (String.eqb operation "add"); lia.
    + rewrite lookup_insert_ne by done. apply Hw.
Qed.

Lemma update_login_usernames e fid username us :
  map u_username (update_login e fid username us) = map u_username us
  /\ map u_password_hash (update_login e fid username us)
     = map u_password_hash us.
Proof.
  unfold update_login. induction us as [|u us [IH1 IH2]]; [done|].
  simpl. rewrite IH1, IH2. now destruct (String.eqb _ _).
Qed.

(** A dispatched command either leaves the three tables of accounts,
    sessions and counters alone, or it is an [add] or [subtract] that went
    through: then the store is that of [modify_item_count] on
    [default_item] with amount 1, plus the audit row of a success. *)
Lemma dispatch_cases e fid s w :
  let res := dispatch e fid s w in
  (users (snd res) = users w /\ user_sessions (snd res) = user_sessions w
   /\ items (snd res) = items w)
  \/ exists operation message new_count w1,
       (operation = "add" \/ operation = "subtract")
       /\ s = "[" +:+ Py.slice_1_m1 s +:+ "]"
       /\ Py.lower (Py.slice_1_m1 s) = operation
       /\ modify_item_count e "default_item" operation 1 w
          = (Return (true, message, new_count), w1)
       /\ res = (Return (message +:+ ". New count: " +:+ Py.str_int new_count),
                 logged (audit_row e fid operation (Some "default_item") true
                                   None) w1).
Proof.
  cbv zeta. destruct (bracketed s) eqn:Hb.
  2:{ left. unfold dispatch. rewrite Hb. done. }
  destruct (bracketed_inv _ Hb) as [t Ht].
  assert (Hsl : Py.slice_1_m1 s = t) by (rewrite Ht; apply PyFacts.slice_bracket).
  rewrite Hsl. clear Hsl Hb. subst s.
  assert (Hmod : forall operation : string,
    operation = "add" \/ operation = "subtract" ->
    modify_item_count e "default_item" operation 1 w
    = (Raise (OverflowError "Python int too large to convert to SQLite INTEGER"),
       w)
    \/ exists message new_count w1,
         modify_item_count e "default_item" operation 1 w
         = (Return (true, message, new_count), w1)).
  { intros operation _. unfold modify_item_count.
    destruct (items w !! "default_item") as [row|]; [|eauto 10].
    destruct (fits_sqlite_integer _); eauto 10. }
  destruct (String.eqb_spec (Py.lower t) "statistics") as [E1|N1].
  { left. rewrite dispatch_unfold_bracket. cbv zeta. rewrite E1.
    change (String.eqb "statistics" "statistics") with true. cbv iota.
    unfold try_except, generate_statistics_report, send_file.
    destruct (report_io e); [done|].
    destruct (post_file e) as [status_code text|msg]; [|done].
    destruct (status_code =? 200); done. }
  assert (Hrun : forall operation : string,
    operation = "add" \/ operation = "subtract" ->
    Py.lower t = operation ->
    dispatch e fid ("[" +:+ t +:+ "]") w
    = match modify_item_count e "default_item" operation 1 w with
      | (Return (success, message, new_count), w1) =>
          (Return (message +:+ ". New count: " +:+ Py.str_int new_count),
           logged (audit_row e fid operation (Some "default_item") success None)
                  w1)
      | (Raise ex, w1) => (Raise ex, w1)
      end).
  { intros operation Hop E. rewrite dispatch_unfold_bracket. cbv zeta.
    rewrite E.
    destruct Hop as [-> | ->]; eval_eqb; unfold bind at 1;
      destruct (modify_item_count _ _ _ _ _) as [[[[s m] n]|ex] w1];
      reflexivity. }
  destruct (String.eqb_spec (Py.lower t) "add") as [E2|N2].
  { rewrite (Hrun "add") by auto.
    destruct (Hmod "add") as [Hm|(m & n & w1 & Hm)]; [now left| |];
      rewrite Hm; [now left|].
    right. exists "add", m, n, w1. repeat split; auto. }
  destruct (String.eqb_spec (Py.lower t) "subtract") as [E3|N3].
  { rewrite (Hrun "subtract") by auto.
    destruct (Hmod "subtract") as [Hm|(m & n & w1 & Hm)]; [now right| |];
      rewrite Hm; [now left|].
    right. exists "subtract", m, n, w1. repeat split; auto. }
  left. rewrite dispatch_unfold_bracket. cbv zeta.
  apply String.eqb_neq in N1, N2, N3. rewrite N1, N2, N3.
  destruct (String.eqb (Py.lower t) "count"); done.
Qed.

End RequestCases.

(** ** What one request keeps *)
Section RequestInvariants.

Context {lib : Library}.

(** X1.  Counters stay at zero or above: if no counter of the store is
    negative before a request, none is after it, whatever the sender and
    the text. *)
Theorem process_command_keeps_counts_nonnegative e fid text w :
  counts_nonnegative w ->
  counts_nonnegative (snd (process_command e fid text w)).
Proof.
  intros Hw.
  assert (Hsame : forall w', items w' = items w -> counts_nonnegative w').
  { intros w' E k row. rewrite E. apply Hw. }
  destruct (process_command_cases e fid text w)
    as [[_ ->]|[(_ & -> & _)|[(_ & t & _ & _ & _ & _ & ->)|(_ & _ & ->)]]];
    try (now apply Hsame).
  destruct (dispatch_cases e fid (Py.strip text) w)
    as [(_ & _ & E)|(op & m & n & w1 & _ & _ & _ & Hm & ->)];
    [now apply Hsame|].
  pose proof (modify_item_count_nonnegative e "default_item" op 1 w
                ltac:(lia) Hw) as H.
  rewrite Hm in H. exact H.
Qed.

(** X2.  A request touches no counter but [default_item]: every other row
    of [items], present or absent, is after the request what it was
    before. *)
Theorem process_command_touches_default_item_only e fid text w k :
  k <> "default_item" ->
  items (snd (process_command e fid text w)) !! k = items w !! k.
Proof.
  intros Hk.
  destruct (process_command_cases e fid text w)
    as [[_ ->]|[(_ & -> & _)|[(_ & t & _ & _ & _ & _ & ->)|(_ & _ & ->)]]];
    try done.
  destruct (dispatch_cases e fid (Py.strip text) w)
    as [(_ & _ & ->)|(op & m & n & w1 & _ & _ & _ & Hm & ->)]; [done|].
  pose proof (modify_item_count_frame e "default_item" op 1 w) as (F & _).
  rewrite Hm in F. now apply F.
Qed.

(** X3.  A counter changes only through [add] or [subtract] of an
    authenticated sender, and the change is audited: if a request leaves
    [items] different, the sender was authenticated, the lowercased
    keyword of its bracketed text was add or subtract, and the last audit
    row is the success of that operation on [default_item], for this
    sender. *)
Theorem counter_change_is_authenticated_and_audited e fid text w :
  items (snd (process_command e fid text w)) <> items w ->
  is_user_authenticated e fid w = true
  /\ exists operation t,
       (operation = "add" \/ operation = "subtract")
       /\ Py.strip text = "[" +:+ t +:+ "]" /\ Py.lower t = operation
       /\ last (command_logs (snd (process_command e fid text w)))
          = Some (mk_log fid operation (Some "default_item") 1 None
                         (CURRENT_TIMESTAMP e)).
Proof.
  intros Hchg.
  destruct (process_command_cases e fid text w)
    as [[_ E]|[(_ & E & _)|[(_ & t & _ & _ & _ & _ & E)|(Ha & _ & E)]]];
    rewrite E in Hchg; try done.
  split; [done|]. rewrite E.
  destruct (dispatch_cases e fid (Py.strip text) w)
    as [(_ & _ & E')|(op & m & n & w1 & Hop & Hs & Hl & Hm & ->)]; [done|].
  exists op, (Py.slice_1_m1 (Py.strip text)). repeat split; try done.
  simpl. now rewrite last_snoc.
Qed.

(** X4.  Accounts are never created, removed, renamed or given another
    password by a request: the usernames and the password hashes of
    [users], row by row, are after the request what they were before. *)
Theorem process_command_keeps_credentials e fid text w :
  map u_username (users (snd (process_command e fid text w)))
  = map u_username (users w)
  /\ map u_password_hash (users (snd (process_command e fid text w)))
     = map u_password_hash (users w).
Proof.
  destruct (process_command_cases e fid text w)
    as [[_ ->]|[(_ & -> & _)|[(_ & t & _ & _ & _ & _ & ->)|(_ & _ & ->)]]];
    try done.
  - apply update_login_usernames.
  - destruct (dispatch_effects e fid (Py.strip text) w) as (-> & _). done.
Qed.

End RequestInvariants.

(** ** Sessions over time *)
Section SessionsOverTime.

Context {lib : Library}.

(** X5.  A session only ever ends by the clock: in a given store, an
    identity that is authenticated at some reading of [CURRENT_TIMESTAMP]
    is authenticated at every earlier reading, and one that is not
    authenticated stays so at every later reading. *)
Theorem authentication_only_expires e1 e2 fid w :
  CURRENT_TIMESTAMP e1 <= CURRENT_TIMESTAMP e2 ->
  (is_user_authenticated e2 fid w = true -> is_user_authenticated e1 fid w = true)
  /\ (is_user_authenticated e1 fid w = false ->
      is_user_authenticated e2 fid w = false).
Proof.
  intros Hle.
  assert (H : is_user_authenticated e2 fid w = true ->
              is_user_authenticated e1 fid w = true).
  { rewrite !is_user_authenticated_true.
    intros [Hb (s & Hs & Hf & Ht)]. split; [done|]. exists s.
    repeat split; try done. lia. }
  split; [exact H|].
  destruct (is_user_authenticated e2 fid w); [|done].
  intros Hf. now rewrite H in Hf.
Qed.

(** X6.  A login opens the door: when the request of a sender without a
    session is answered with the success message, the sender is
    authenticated in the store it leaves, at every reading of
    [CURRENT_TIMESTAMP] below the reading of [datetime.now()] at the login
    plus 24 hours. *)
Theorem login_authenticates e fid text w w' e' :
  is_user_authenticated e fid w = false ->
  process_command e fid text w = (Return "Authentication successful", w') ->
  CURRENT_TIMESTAMP e' < datetime_now e + timedelta_hours 24 ->
  is_user_authenticated e' fid w' = true.
Proof.
  intros Ha Hres Ht.
  destruct (process_command_cases e fid text w)
    as [[_ E]|[(_ & _ & E)|[(_ & t & _ & _ & Hc & _ & E)|(Ha' & _)]]].
  - rewrite E in Hres. discriminate Hres.
  - rewrite Hres in E. done.
  - rewrite E in Hres. injection Hres as <-.
    rewrite (is_user_authenticated_frame e' fid (logged_in e fid t w))
      by reflexivity.
    apply is_user_authenticated_true. split.
    + eapply logged_in_bound, Hc.
    + exists (new_session e fid). split; [|done].
      simpl. apply elem_of_app. right. left.
  - congruence.
Qed.

End SessionsOverTime.

(** ** The UNIQUE column of users *)
Section UniqueFacebookId.

Context {lib : Library}.

Lemma count_facebook_id_0 fid (us : list user_row) :
  count_facebook_id fid us = 0%nat -> fid ∉ (u_facebook_id <$> us).
Proof.
  unfold count_facebook_id. induction us as [|u us IH]; simpl.
  - intros _ H. inversion H.
  - rewrite filter_cons. destruct (decide (u_facebook_id u = fid)) as [E|N].
    + discriminate.
    + intros H. rewrite not_elem_of_cons. split; [congruence|now apply IH].
Qed.

Lemma update_login_facebook_ids e fid username (us : list user_row) x :
  x ∈ (u_facebook_id <$> update_login e fid username us) ->
  x = fid \/ x ∈ (u_facebook_id <$> us).
Proof.
  induction us as [|u us IH]; simpl; [intros H; inversion H|].
  rewrite !elem_of_cons. intros [->|H].
  - destruct (String.eqb _ _); simpl; auto.
  - destruct (IH H); auto.
Qed.

Lemma update_login_NoDup e fid username (us : list user_row) :
  NoDup (u_facebook_id <$> us) ->
  (count_facebook_id fid (update_login e fid username us) <= 1)%nat ->
  NoDup (u_facebook_id <$> update_login e fid username us).
Proof.
  induction us as [|u us IH]; [done|].
  cbn [update_login map fmap list_fmap]. rewrite !NoDup_cons.
  intros [Hu Hus]. unfold count_facebook_id. rewrite filter_cons.
  fold (update_login e fid username us).
  fold (count_facebook_id fid (update_login e fid username us)).
  destruct (String.eqb (u_username u) username); simpl.
  - rewrite decide_True by done. simpl.
    fold (count_facebook_id fid (update_login e fid username us)).
    intros Hc. split.
    + apply count_facebook_id_0. lia.
    + apply IH; [done|lia].
  - destruct (decide (u_facebook_id u = fid)) as [E|N]; simpl;
      fold (count_facebook_id fid (update_login e fid username us));
      intros Hc.
    + split; [rewrite E; apply count_facebook_id_0; lia|apply IH; [done|lia]].
    + split; [|now apply IH].
      intros [?|?]%update_login_facebook_ids; done.
Qed.

(** X7.  The [UNIQUE] constraint of [users.facebook_id] is kept by every
    request: if no two accounts are bound to the same identity before,
    none are after, also when a login rebinds an account. *)
Theorem process_command_keeps_facebook_ids_unique e fid text w :
  NoDup (u_facebook_id <$> users w) ->
  NoDup (u_facebook_id <$> users (snd (process_command e fid text w))).
Proof.
  intros Hw.
  destruct (process_command_cases e fid text w)
    as [[_ ->]|[(_ & -> & _)|[(_ & t & _ & _ & _ & Hc & ->)|(_ & _ & ->)]]];
    try done.
  - simpl. now apply update_login_NoDup.
  - destruct (dispatch_effects e fid (Py.strip text) w) as (-> & _). done.
Qed.

End UniqueFacebookId.

(** ** Commands on the counter *)
Section CounterCommands.

Context {lib : Library}.

(** X8.  [count] reports what [add] and [subtract] announce: when the
    [[add]] or [[subtract]] of an authenticated sender is answered, the
    reply ends in the new count [n] -- the prior count plus one, or minus
    one but not below zero, or 1 resp. 0 for a counter that did not exist
    -- and a [[count]] of a sender authenticated in the store it leaves
    is answered with that same [n]. *)
Theorem count_reports_last_modification
    e1 e2 fid1 fid2 text1 text2 (operation : string) w reply w1 :
  operation = "add" \/ operation = "subtract" ->
  Py.strip text1 = "[" +:+ operation +:+ "]" ->
  is_user_authenticated e1 fid1 w = true ->
  process_command e1 fid1 text1 w = (Return reply, w1) ->
  Py.strip text2 = "[count]" ->
  is_user_authenticated e2 fid2 w1 = true ->
  exists n,
    n = match get_item_count "default_item" w with
        | Some c => if String.eqb operation "add" then c + 1
                    else Z.max 0 (c - 1)
        | None => if String.eqb operation "add" then 1 else 0
        end
    /\ reply = "Item default_item " +:+ operation
               +:+ "ed successfully. New count: " +:+ Py.str_int n
    /\ fst (process_command e2 fid2 text2 w1)
       = Return ("Current count for default_item: " +:+ Py.str_int n).
Proof.
  intros Hop Hs1 Ha1 Hres Hs2 Ha2.
  rewrite process_command_dispatch in Hres
    by (rewrite ?Hs1; destruct Hop as [-> | ->]; done).
  rewrite Hs1, dispatch_modify in Hres by done.
  destruct (modify_item_count e1 "default_item" operation 1 w)
    as [[[[flag m] n]|ex] w0] eqn:Hm; [|done].
  injection Hres as <- <-.
  apply modify_item_count_returns in Hm as (-> & -> & Hget & Hn).
  exists n. split; [|split].
  - rewrite Hn. unfold get_item_count, next_count, first_count.
    now destruct (items w !! "default_item").
  - destruct Hop as [-> | ->]; reflexivity.
  - rewrite process_command_dispatch by (rewrite ?Hs2; done).
    rewrite Hs2, dispatch_count. simpl.
    change (get_item_count "default_item" (logged _ w0))
      with (get_item_count "default_item" w0).
    now rewrite Hget.
Qed.

(** X9.  [count] only reads: for an authenticated sender the store after
    [[count]] differs from the one before in [command_logs] alone.  A
    counter that does not exist is reported as 0 and is not created, and
    a second [[count]] right after gets the same reply. *)
Theorem count_is_read_only e1 e2 fid text1 text2 w :
  Py.strip text1 = "[count]" -> Py.strip text2 = "[count]" ->
  is_user_authenticated e1 fid w = true ->
  is_user_authenticated e2 fid w = true ->
  let res := process_command e1 fid text1 w in
  set_command_logs (command_logs w) (snd res) = w
  /\ (get_item_count "default_item" w = None ->
      fst res = Return "Current count for default_item: 0"
      /\ get_item_count "default_item" (snd res) = None)
  /\ fst (process_command e2 fid text2 (snd res)) = fst res.
Proof.
  intros Hs1 Hs2 Ha1 Ha2. cbv zeta.
  rewrite (process_command_dispatch e1) by (rewrite ?Hs1; done).
  rewrite Hs1, dispatch_count. simpl. split; [now destruct w|].
  split.
  - intros Hn. change (get_item_count "default_item" (logged _ w))
      with (get_item_count "default_item" w). now rewrite Hn.
  - rewrite process_command_dispatch.
    + now rewrite Hs2, dispatch_count.
    + now rewrite Hs2.
    + rewrite <- Ha2. now apply is_user_authenticated_frame.
Qed.

(** X10.  Blank or unbracketed text: when the trimmed text does not both
    start with an opening and end with a closing bracket -- the empty text
    of a message without [text] included -- an authenticated sender gets
    the unknown-command reply and an audit row of failure with the trimmed
    text as parameters; a sender that is not authenticated gets the
    request to log in, and nothing is written at all. *)
Theorem unbracketed_text_is_unknown e fid text w :
  bracketed (Py.strip text) = false ->
  process_command e fid text w
  = if is_user_authenticated e fid w
    then (Return "Unknown command. Use [help] to see available commands.",
          logged (mk_log fid "unknown" (Some (Py.strip text)) 0
                         (Some "Unknown command") (CURRENT_TIMESTAMP e)) w)
    else (Return "You must be authenticated to use this command. Please login first.",
          w).
Proof.
  intros Hb.
  assert (Hh : Py.strip text <> "[help]") by (intros E; now rewrite E in Hb).
  destruct (is_user_authenticated e fid w) eqn:Ha.
  - rewrite process_command_dispatch by done. unfold dispatch. now rewrite Hb.
  - now apply process_command_rejected.
Qed.

End CounterCommands.

(** ** Who can log in *)
Section WhoCanLogIn.

Context {lib : Library}.
Variable generate_password_hash : string -> string.

Lemma credentials_valid_self t w :
  credentials_valid t t w = true ->
  exists u, u ∈ users w /\ u_username u = t
            /\ check_password_hash (u_password_hash u) (u_username u) = true.
Proof.
  unfold credentials_valid.
  destruct (stored_row t w) as [row|] eqn:E; [|done].
  apply stored_row_Some in E as [Hin Hn]. intros Hc. exists row.
  now rewrite Hn.
Qed.

Lemma no_self_password_step e fid text w :
  no_self_password w ->
  users (snd (process_command e fid text w)) = users w
  /\ user_sessions (snd (process_command e fid text w)) = user_sessions w.
Proof.
  intros Hw.
  destruct (process_command_cases e fid text w)
    as [[_ ->]|[(_ & -> & _)|[(_ & t & _ & _ & Hc & _)|(_ & _ & ->)]]];
    try done.
  - apply credentials_valid_self in Hc as (u & Hu & _ & Hc).
    now rewrite (Hw u Hu) in Hc.
  - destruct (dispatch_effects e fid (Py.strip text) w) as (-> & -> & _). done.
Qed.

Lemma no_login_step_run requests w :
  no_self_password w ->
  users (run_requests requests w) = users w
  /\ user_sessions (run_requests requests w) = user_sessions w.
Proof.
  revert w. induction requests as [|[[e fid] text] requests IH];
    intros w Hw; [done|].
  destruct (no_self_password_step e fid text w Hw) as [Hu Hs].
  simpl. rewrite <- Hu, <- Hs. apply IH.
  intros u. rewrite Hu. apply Hw.
Qed.

(** X11.  The interpreter logs a sender in only as an account whose
    password is its own username.  So in a store where no account is like
    that, no run of requests, whatever the senders and the texts, issues a
    session or rebinds an account, and who is authenticated never
    changes. *)
Theorem no_login_without_self_password requests w :
  no_self_password w ->
  users (run_requests requests w) = users w
  /\ user_sessions (run_requests requests w) = user_sessions w
  /\ forall e fid,
       is_user_authenticated e fid (run_requests requests w)
       = is_user_authenticated e fid w.
Proof.
  intros Hw.
  destruct (no_login_step_run requests w Hw) as [Hu Hs].
  repeat split; try done.
  intros e fid. now apply is_user_authenticated_frame.
Qed.

(** The store that [init_database] makes of a new database file. *)
Lemma init_database_empty e :
  init_database generate_password_hash e empty_db
  = (Return tt,
     set_users [mk_user "admin_fb_id" "admin"
                        (generate_password_hash "admin123") 0
                        (CURRENT_TIMESTAMP e) None] empty_db).
Proof. reflexivity. Qed.

Lemma unauthenticated_run_keeps_items requests w :
  (forall e fid, is_user_authenticated e fid w = false) ->
  no_self_password w ->
  items (run_requests requests w) = items w.
Proof.
  revert w. induction requests as [|[[e fid] text] requests IH];
    intros w Ha Hw; [done|].
  destruct (no_self_password_step e fid text w Hw) as [Hu Hs].
  assert (Hi : items (snd (process_command e fid text w)) = items w).
  { destruct (process_command_cases e fid text w)
      as [[_ ->]|[(_ & -> & _)|[(_ & t & _ & _ & _ & _ & ->)|(Ha' & _)]]];
      try done.
    now rewrite Ha in Ha'. }
  simpl. rewrite <- Hi. apply IH.
  - intros e' fid'. rewrite <- (Ha e' fid').
    now apply is_user_authenticated_frame.
  - intros u. rewrite Hu. apply Hw.
Qed.

(** X12.  After a fresh install nobody gets in.  [init_database] on a new
    database file stores the one account admin with the hash of
    "admin123".  If that hash does not accept "admin" as password, then
    after any run of requests nobody is authenticated, at any time, and
    there still is no counter. *)
Theorem fresh_install_lets_nobody_in e0 w0 requests :
  check_password_hash (generate_password_hash "admin123") "admin" = false ->
  init_database generate_password_hash e0 empty_db = (Return tt, w0) ->
  (forall e fid, is_user_authenticated e fid (run_requests requests w0) = false)
  /\ items (run_requests requests w0) = ∅
  /\ user_sessions (run_requests requests w0) = [].
Proof.
  intros Hh Hinit. rewrite init_database_empty in Hinit.
  injection Hinit as <-.
  set (w0 := set_users _ empty_db).
  assert (Hw : no_self_password w0).
  { intros u Hu. apply list_elem_of_singleton in Hu as ->. exact Hh. }
  assert (Ha : forall e fid, is_user_authenticated e fid w0 = false).
  { intros e fid. apply is_user_authenticated_false.
    intros [_ (s & Hs & _)]. inversion Hs. }
  destruct (no_login_step_run requests w0 Hw) as (Hu & Hs).
  repeat split.
  - intros e fid. rewrite <- (Ha e fid).
    now apply is_user_authenticated_frame.
  - now rewrite unauthenticated_run_keeps_items.
  - now rewrite Hs.
Qed.

End WhoCanLogIn.

(** ** Start-up *)
Section StartUp.

Variable generate_password_hash : string -> string.

Lemma no_admin_row (us : list user_row) :
  length (filter (fun u => u_username u = "admin") us) = 0%nat ->
  "admin" ∉ (u_username <$> us).
Proof.
  induction us as [|u us IH]; simpl.
  - intros _ H. inversion H.
  - rewrite filter_cons. destruct (decide (u_username u = "admin")); [done|].
    intros H. rewrite not_elem_of_cons. split; [congruence|now apply IH].
Qed.

Lemma some_admin_row (us : list user_row) :
  length (filter (fun u => u_username u = "admin") us) <> 0%nat ->
  exists u, u ∈ us /\ u_username u = "admin".
Proof.
  destruct (filter _ us) as [|u l] eqn:E; [done|]. intros _.
  assert (H : u ∈ filter (fun u => u_username u = "admin") us)
    by (rewrite E; left).
  apply list_elem_of_filter in H as [? ?]. eauto.
Qed.

(** X13.  Starting the bot again loses nothing and resets nothing.  When
    [init_database] returns, an account named admin exists; the accounts
    that were there come first and unchanged, and counters, audit rows and
    sessions are untouched.  If an account named admin was already there,
    the store is not changed at all -- its password and its binding stay
    -- so that running [init_database] once more changes nothing. *)
Theorem init_database_keeps_data e w w1 :
  init_database generate_password_hash e w = (Return tt, w1) ->
  (exists u, u ∈ users w1 /\ u_username u = "admin")
  /\ (exists added, users w1 = users w ++ added)
  /\ items w1 = items w /\ command_logs w1 = command_logs w
  /\ user_sessions w1 = user_sessions w
  /\ ((exists u, u ∈ users w /\ u_username u = "admin") -> w1 = w)
  /\ forall e', init_database generate_password_hash e' w1 = (Return tt, w1).
Proof.
  unfold init_database at 1.
  destruct (Nat.eqb_spec
              (length (filter (fun u => u_username u = "admin") (users w))) 0)
    as [E|N].
  - destruct (_ <? _)%nat; [done|]. intros [= <-]. simpl.
    split; [|split; [|repeat split]].
    + eexists. split; [apply elem_of_app; right; left|done].
    + eauto.
    + intros (u & Hu & Hn). apply no_admin_row in E. destruct E.
      apply list_elem_of_fmap. eauto.
    + intros e'. unfold init_database.
      match goal with
      | |- context [(?n =? 0)%nat] => destruct (Nat.eqb_spec n 0) as [E'|_]
      end; [|done].
      cbn [users set_users] in E'.
      rewrite filter_app, length_app, (filter_cons_True _ _ []) in E' by done.
      simpl in E'. lia.
  - intros [= <-]. split; [now apply some_admin_row|].
    split; [exists []; now rewrite app_nil_r|]. repeat split.
    intros e'. unfold init_database.
    now destruct (Nat.eqb_spec
              (length (filter (fun u => u_username u = "admin") (users w))) 0).
Qed.

(** X14.  [init_database] keeps both [UNIQUE] columns of [users] unique:
    if no two accounts share a username or an identity before, none do
    after.  It raises, and then changes nothing, exactly when no account
    is named admin while some account is bound to the identity
    [admin_fb_id]. *)
Theorem init_database_keeps_users_unique e w :
  NoDup (u_username <$> users w) -> NoDup (u_facebook_id <$> users w) ->
  let res := init_database generate_password_hash e w in
  NoDup (u_username <$> users (snd res))
  /\ NoDup (u_facebook_id <$> users (snd res))
  /\ ((exists ex, fst res = Raise ex) <->
      (("admin" ∉ (u_username <$> users w))
       /\ ("admin_fb_id" ∈ (u_facebook_id <$> users w))))
  /\ ((exists ex, fst res = Raise ex) -> snd res = w).
Proof.
  intros Hn Hf. cbv zeta. unfold init_database.
  destruct (Nat.eqb_spec
              (length (filter (fun u => u_username u = "admin") (users w))) 0)
    as [E|N].
  - pose proof (no_admin_row _ E) as Hna.
    destruct (Nat.ltb_spec 0 (count_facebook_id "admin_fb_id" (users w)))
      as [Hc|Hc]; simpl.
    + split; [done|]. split; [done|]. split; [|done].
      split; [intros _|intros _; now eexists]. split; [done|].
      unfold count_facebook_id in Hc.
      destruct (filter (fun u => u_facebook_id u = "admin_fb_id") (users w))
        as [|u l] eqn:Ef; [simpl in Hc; lia|].
      assert (H : u ∈ filter (fun u => u_facebook_id u = "admin_fb_id")
                         (users w)) by (rewrite Ef; left).
      apply list_elem_of_filter in H as [H1 H2].
      apply list_elem_of_fmap. eauto.
    + assert (Hnf : "admin_fb_id" ∉ (u_facebook_id <$> users w))
        by (apply count_facebook_id_0; lia).
      rewrite !fmap_app. simpl.
      split; [|split; [|split]].
      * apply NoDup_app. repeat split; try done.
        -- intros x Hx ->%list_elem_of_singleton. done.
        -- apply NoDup_singleton.
      * apply NoDup_app. repeat split; try done.
        -- intros x Hx ->%list_elem_of_singleton. done.
        -- apply NoDup_singleton.
      * split; [intros [ex H]; done|tauto].
      * intros [ex H]. done.
  - simpl. split; [done|]. split; [done|]. split.
    + split; [intros [ex H]; done|].
      intros [Hna _]. apply some_admin_row in N as (u & Hu & Hun).
      destruct Hna. apply list_elem_of_fmap. eauto.
    + intros [ex H]. done.
Qed.

End StartUp.

(** ** The webhook *)
Section Webhook.

Context {lib : Library}.
Variable hmac_sha256_hexdigest : string -> string -> string.

Lemma compare_digest_true a b :
  compare_digest a b = Verdict true <-> a = b /\ isascii a = true.
Proof.
  unfold compare_digest. split.
  - destruct (isascii a) eqn:Ea; [|done]. destruct (isascii b); [|done].
    simpl. intros [= H]. now apply String.eqb_eq in H.
  - intros [<- Ea]. rewrite Ea. simpl. now rewrite String.eqb_refl.
Qed.

Lemma verify_webhook_signature_true app_secret payload signature :
  verify_webhook_signature hmac_sha256_hexdigest app_secret payload signature
  = Verdict true
  <-> signature
      = Some ("sha256=" +:+ hmac_sha256_hexdigest app_secret payload)
      /\ isascii (hmac_sha256_hexdigest app_secret payload) = true.
Proof.
  unfold verify_webhook_signature.
  destruct signature as [[|c r]|].
  - split; [done|]. intros [H _]. vm_compute in H. discriminate H.
  - rewrite compare_digest_true. split.
    + intros [<- Ha]. split; [reflexivity|exact Ha].
    + intros [H Ha]. injection H as -> ->. split; [reflexivity|exact Ha].
  - split; [done|]. intros [[=] _].
Qed.

(** X15.  The signature check accepts exactly the header that spells
    [sha256=] followed by the HMAC of the body under the app secret (a
    digest in ASCII, as hex digests are).  A missing or empty header is
    turned down, never an error; a header with a character outside ASCII
    is an error ([TypeError]), not a refusal. *)
Theorem signature_accepted_iff_expected app_secret payload signature :
  let digest := hmac_sha256_hexdigest app_secret payload in
  let verdict :=
    verify_webhook_signature hmac_sha256_hexdigest app_secret payload
                             signature in
  (verdict = Verdict true
   <-> signature = Some ("sha256=" +:+ digest) /\ isascii digest = true)
  /\ (signature = None \/ signature = Some "" -> verdict = Verdict false)
  /\ (forall sig, signature = Some sig -> sig <> "" -> isascii sig = false ->
                  exists msg, verdict = TypeError msg).
Proof.
  cbv zeta. split; [apply verify_webhook_signature_true|]. split.
  - intros [-> | ->]; reflexivity.
  - intros sig -> Hne Ha. unfold verify_webhook_signature.
    destruct sig as [|c r]; [done|]. unfold compare_digest.
    rewrite Ha, andb_false_r. eauto.
Qed.

Lemma message_senders_cons ev evs :
  message_senders (ev :: evs)
  = match ev_message ev with
    | Some _ => ev_sender_id ev :: message_senders evs
    | None => message_senders evs
    end.
Proof.
  unfold message_senders. rewrite filter_cons.
  destruct (ev_message ev) as [m|].
  - now rewrite decide_True by eauto.
  - now rewrite decide_False by (intros [? ?]; done).
Qed.

Lemma process_command_logs_step e fid text w :
  exists rows,
    command_logs (snd (process_command e fid text w)) = command_logs w ++ rows
    /\ (length rows <= 1)%nat.
Proof.
  destruct (process_command_cases e fid text w)
    as [[_ ->]|[(_ & -> & _)|[(_ & t & _ & _ & _ & _ & ->)|(_ & _ & ->)]]].
  - eexists [_]. simpl. split; [done|lia].
  - exists []. simpl. rewrite app_nil_r. split; [done|lia].
  - eexists [_]. simpl. split; [done|lia].
  - destruct (dispatch_effects e fid (Py.strip text) w) as (_ & _ & H).
    destruct (fst (dispatch e fid (Py.strip text) w)).
    + destruct H as (r & -> & _). exists [r]. simpl. split; [done|lia].
    + rewrite H. exists []. rewrite app_nil_r. simpl. split; [done|lia].
Qed.

Lemma handle_event_handled ev s :
  let res := handle_event ev s in
  handled (message_senders [ev]) s (snd res)
  /\ (fst res = Return tt ->
      exists replies, sent_messages (snd res) = sent_messages s ++ replies
                      /\ replies.*1 = message_senders [ev]).
Proof.
  cbv zeta. unfold handle_event. rewrite message_senders_cons.
  change (message_senders []) with (@nil string).
  destruct (ev_message ev) as [message|]; simpl.
  2:{ split.
      - split; [exists []; rewrite app_nil_r; done|].
        split; [done|]. exists []. rewrite app_nil_r. done.
      - intros _. exists []. now rewrite app_nil_r. }
  set (text := default "" message).
  destruct (process_command_logs_step (ev_env ev) (ev_sender_id ev) text (store s))
    as (rows & Hrows & Hlen).
  pose proof (process_command_keeps_sessions (ev_env ev) (ev_sender_id ev) text
                (store s)) as Hsess.
  destruct (process_command (ev_env ev) (ev_sender_id ev) text (store s))
    as [[reply|ex] w'] eqn:Hpc; simpl in *.
  - assert (Hh : forall s',
      command_logs (store s') = command_logs w' ->
      user_sessions (store s') = user_sessions w' ->
      sent_messages s'
      = sent_messages s ++ [(ev_sender_id ev, reply)] ->
      handled [ev_sender_id ev] s s').
    { intros s' Hl Hs Ho. split; [|split].
      - exists rows. rewrite Hl. split; [done|]. simpl. lia.
      - intros x Hx. rewrite Hs. now apply Hsess.
      - exists [(ev_sender_id ev, reply)]. done. }
    unfold send_message.
    destruct (ev_post ev) as [status_code body|msg];
      [destruct (status_code =? 200)|]; simpl.
    + split; [now apply Hh|]. intros _. now eexists [_].
    + split; [now apply Hh|]. intros _. now eexists [_].
    + split; [now apply Hh|]. done.
  - split; [|done]. split; [|split].
    + exists rows. split; [done|]. simpl. lia.
    + done.
    + exists []. rewrite app_nil_r. split; [done|]. apply prefix_nil.
Qed.

Lemma message_senders_app evs1 evs2 :
  message_senders (evs1 ++ evs2) = message_senders evs1 ++ message_senders evs2.
Proof. unfold message_senders. now rewrite filter_app, fmap_app. Qed.

Lemma handled_refl senders s : handled senders s s.
Proof.
  split; [|split].
  - exists []. rewrite app_nil_r. split; [done|]. simpl. lia.
  - done.
  - exists []. rewrite app_nil_r. split; [done|]. apply prefix_nil.
Qed.

Lemma handled_weaken l1 l2 s s1 : handled l1 s s1 -> handled (l1 ++ l2) s s1.
Proof.
  intros ((rows & Hr & Hl) & Hs & (replies & Ho & Hp)). split; [|split].
  - exists rows. split; [done|]. rewrite length_app. lia.
  - done.
  - exists replies. split; [done|]. now apply prefix_app_r.
Qed.

Lemma handled_trans l1 l2 s s1 s2 replies1 :
  handled l1 s s1 ->
  sent_messages s1 = sent_messages s ++ replies1 -> replies1.*1 = l1 ->
  handled l2 s1 s2 -> handled (l1 ++ l2) s s2.
Proof.
  intros ((rows1 & Hr1 & Hl1) & Hs1 & _) Ho1 Hp1
         ((rows2 & Hr2 & Hl2) & Hs2 & (replies2 & Ho2 & Hp2)).
  split; [|split].
  - exists (rows1 ++ rows2). rewrite Hr2, Hr1, <- app_assoc.
    split; [done|]. rewrite !length_app. lia.
  - auto.
  - exists (replies1 ++ replies2). rewrite Ho2, Ho1, <- app_assoc.
    split; [done|]. rewrite fmap_app, Hp1. now apply prefix_app.
Qed.

Lemma handle_events_handled evs s :
  let res := handle_events evs s in
  handled (message_senders evs) s (snd res)
  /\ (fst res = Return tt ->
      exists replies, sent_messages (snd res) = sent_messages s ++ replies
                      /\ replies.*1 = message_senders evs).
Proof.
  cbv zeta. revert s. induction evs as [|ev evs IH]; intros s.
  { simpl. split; [apply handled_refl|]. intros _. exists [].
    now rewrite app_nil_r. }
  replace (message_senders (ev :: evs))
    with (message_senders [ev] ++ message_senders evs)
    by (now rewrite <- message_senders_app).
  cbn [handle_events].
  destruct (handle_event_handled ev s) as [H1 H2].
  destruct (handle_event ev s) as [[[]|ex] s1]; simpl in *.
  - destruct (H2 eq_refl) as (replies1 & Ho1 & Hp1).
    destruct (IH s1) as [H3 H4]. split.
    + eapply handled_trans; eauto.
    + intros Hret. destruct (H4 Hret) as (replies2 & Ho2 & Hp2).
      exists (replies1 ++ replies2).
      rewrite Ho2, Ho1, <- app_assoc, fmap_app, Hp1, Hp2. done.
  - split; [now apply handled_weaken|done].
Qed.

Lemma handle_events_app evs1 evs2 s :
  handle_events (evs1 ++ evs2) s
  = match handle_events evs1 s with
    | (Return _, s') => handle_events evs2 s'
    | (Raise ex, s') => (Raise ex, s')
    end.
Proof.
  revert s. induction evs1 as [|ev evs1 IH]; intros s; [done|].
  simpl. destruct (handle_event ev s) as [[u|ex] s1]; [apply IH|done].
Qed.

(** The two loops of the handler visit the events of all entries in
    order, and stop at the first exception. *)
Lemma handle_entries_concat entries s :
  handle_entries entries s = handle_events (concat entries) s.
Proof.
  revert s. induction entries as [|entry entries IH]; intros s; [done|].
  simpl. rewrite handle_events_app.
  destruct (handle_events entry s) as [[u|ex] s1]; [apply IH|done].
Qed.

(** X16.  Only a signed request about a page has any effect.  If the
    store or the outbox after [handle_webhook] differs from before, the
    signature header was the expected one and [object] was [page].  A
    request whose signature is not the expected one is answered with 403
    (or ends in the [TypeError] of the comparison), never with 200. *)
Theorem webhook_acts_only_on_signed_page_requests app_secret rq s :
  let res := handle_webhook hmac_sha256_hexdigest app_secret rq s in
  let expected :=
    Some ("sha256=" +:+ hmac_sha256_hexdigest app_secret (rq_data rq)) in
  (snd res <> s -> rq_signature rq = expected /\ rq_object rq = Some "page")
  /\ (rq_signature rq <> expected ->
      snd res = s
      /\ (fst res = Response "Invalid signature" 403
          \/ exists msg, fst res = UnhandledTypeError msg)).
Proof.
  cbv zeta. unfold handle_webhook.
  pose proof (verify_webhook_signature_true app_secret (rq_data rq)
                (rq_signature rq)) as Hv.
  destruct (verify_webhook_signature hmac_sha256_hexdigest app_secret
              (rq_data rq) (rq_signature rq)) as [[]|msg]; simpl.
  - destruct (proj1 Hv eq_refl) as [Hsig _]. split; [|done].
    destruct (decide (rq_object rq = Some "page")); [done|]. simpl. done.
  - split; [done|]. intros _. split; [done|]. now left.
  - split; [done|]. intros _. split; [done|]. right. now eexists.
Qed.

(** X17.  One reply per message, to its sender, in order.  The texts
    handed to the platform during a request are added at the end of the
    outbox; their recipients are the senders of the events that hold a
    message, in the order of the entries and events of the body: all of
    them when the request is answered with 200 and [object] is [page], a
    first part of them in every other case. *)
Theorem webhook_replies_to_senders_in_order app_secret rq s :
  let res := handle_webhook hmac_sha256_hexdigest app_secret rq s in
  let senders := message_senders (concat (rq_entry rq)) in
  exists replies,
    sent_messages (snd res) = sent_messages s ++ replies
    /\ replies.*1 `prefix_of` senders
    /\ (forall body, fst res = Response body 200 ->
                     rq_object rq = Some "page" -> replies.*1 = senders).
Proof.
  cbv zeta. unfold handle_webhook.
  assert (Hnone : exists replies,
    sent_messages s = sent_messages s ++ replies
    /\ replies.*1 `prefix_of` message_senders (concat (rq_entry rq))).
  { exists []. rewrite app_nil_r. split; [done|]. apply prefix_nil. }
  destruct (verify_webhook_signature hmac_sha256_hexdigest app_secret
              (rq_data rq) (rq_signature rq)) as [[]|msg]; simpl.
  - destruct (decide (rq_object rq = Some "page")) as [Hp|Hp].
    + rewrite handle_entries_concat.
      destruct (handle_events_handled (concat (rq_entry rq)) s)
        as [(_ & _ & (replies & Ho & Hpre)) Hfull].
      destruct (handle_events (concat (rq_entry rq)) s) as [[[]|ex] s1];
        simpl in *.
      * destruct (Hfull eq_refl) as (replies' & Ho' & Hp').
        exists replies'. split; [done|]. split; [now rewrite Hp'|done].
      * exists replies. split; [done|]. split; [done|]. done.
    + simpl. destruct Hnone as (replies & Ho & Hpre). exists replies.
      split; [done|]. split; [done|]. intros body _ Hp'. done.
  - destruct Hnone as (replies & Ho & Hpre). exists replies.
    split; [done|]. split; [done|]. done.
  - destruct Hnone as (replies & Ho & Hpre). exists replies.
    split; [done|]. split; [done|]. done.
Qed.

(** X18.  The audit log and the sessions across a request.  Whatever the
    body and the answer, [handle_webhook] only appends to [command_logs],
    at most one row per event that holds a message, and it removes no row
    of [user_sessions]. *)
Theorem webhook_appends_audit_rows_and_keeps_sessions app_secret rq s :
  let res := handle_webhook hmac_sha256_hexdigest app_secret rq s in
  (exists rows,
     command_logs (store (snd res)) = command_logs (store s) ++ rows
     /\ (length rows <= length (message_senders (concat (rq_entry rq))))%nat)
  /\ (forall x, x ∈ user_sessions (store s) ->
                x ∈ user_sessions (store (snd res))).
Proof.
  cbv zeta. unfold handle_webhook.
  assert (Hnone : (exists rows,
     command_logs (store s) = command_logs (store s) ++ rows
     /\ (length rows <= length (message_senders (concat (rq_entry rq))))%nat)
    /\ (forall x, x ∈ user_sessions (store s) -> x ∈ user_sessions (store s))).
  { split; [|done]. exists []. rewrite app_nil_r. split; [done|]. simpl. lia. }
  destruct (verify_webhook_signature hmac_sha256_hexdigest app_secret
              (rq_data rq) (rq_signature rq)) as [[]|msg]; simpl; try done.
  destruct (decide (rq_object rq = Some "page")) as [Hp|Hp]; [|done].
  rewrite handle_entries_concat.
  destruct (handle_events_handled (concat (rq_entry rq)) s)
    as [(Hrows & Hsess & _) _].
  destruct (handle_events (concat (rq_entry rq)) s) as [[[]|ex] s1]; done.
Qed.

End Webhook.

(** ** The command-usage sheet of the report *)
Section CommandUsage.

Lemma group_by_command_snoc logs r :
  group_by_command (logs ++ [r]) = group_add r (group_by_command logs).
Proof. unfold group_by_command. now rewrite fold_left_app. Qed.

Lemma sum_usage_group_add r gs :
  foldr (fun g acc => g_usage_count g + acc) 0 (group_add r gs)
  = foldr (fun g acc => g_usage_count g + acc) 0 gs + 1.
Proof.
  induction gs as [|g gs IH]; simpl; [lia|].
  destruct (String.eqb _ _); simpl; lia.
Qed.

Lemma insert_usage_desc_perm g l : insert_usage_desc g l ≡ₚ g :: l.
Proof.
  induction l as [|x l IH]; simpl; [done|].
  destruct (_ <? _); [done|]. rewrite IH. apply Permutation_swap.
Qed.

Lemma order_by_usage_perm l : foldr insert_usage_desc [] l ≡ₚ l.
Proof.
  induction l as [|g l IH]; simpl; [done|].
  now rewrite insert_usage_desc_perm, IH.
Qed.

Lemma sum_usage_perm l1 l2 :
  l1 ≡ₚ l2 ->
  foldr (fun g acc => g_usage_count g + acc) 0 l1
  = foldr (fun g acc => g_usage_count g + acc) 0 l2.
Proof.
  intros H. induction H; simpl; lia.
Qed.

(** X19.  The number of the summary sheet counts every audit row once:
    [Total Commands Executed] is the number of rows of [command_logs],
    and 0 for an empty log. *)
Theorem total_commands_counts_audit_rows w :
  total_commands_executed w = Z.of_nat (length (command_logs w)).
Proof.
  unfold total_commands_executed.
  assert (H : foldr (fun g acc => g_usage_count g + acc) 0 (command_usage w)
              = Z.of_nat (length (command_logs w))).
  { unfold command_usage. rewrite (sum_usage_perm _ _ (order_by_usage_perm _)).
    induction (command_logs w) as [|r logs IH] using rev_ind; [done|].
    rewrite group_by_command_snoc, sum_usage_group_add, IH, length_app.
    simpl. lia. }
  rewrite <- H. now destruct (command_usage w).
Qed.

Lemma rows_of_snoc c logs r :
  rows_of c (logs ++ [r])
  = rows_of c logs ++ (if decide (l_command r = c) then [r] else []).
Proof.
  unfold rows_of. rewrite filter_app.
  f_equal; try (rewrite filter_cons; now destruct (decide (l_command r = c))).
Qed.

Lemma rows_of_nil c logs : c ∉ (l_command <$> logs) -> rows_of c logs = [].
Proof.
  intros H. unfold rows_of. induction logs as [|r logs IH]; [done|].
  rewrite fmap_cons, not_elem_of_cons in H. destruct H as [H1 H2].
  rewrite filter_cons, decide_False by congruence. now apply IH.
Qed.

Lemma sum_success_app l1 l2 :
  sum_success (l1 ++ l2) = sum_success l1 + sum_success l2.
Proof. induction l1 as [|r l1 IH]; simpl; lia. Qed.

Lemma group_add_commands r gs :
  g_command <$> group_add r gs
  = if decide (l_command r ∈ (g_command <$> gs)) then g_command <$> gs
    else (g_command <$> gs) ++ [l_command r].
Proof.
  induction gs as [|g gs IH].
  - destruct (decide (l_command r ∈ (g_command <$> @nil usage_row)))
      as [H|_]; [inversion H|reflexivity].
  - cbn [group_add].
    destruct (String.eqb_spec (g_command g) (l_command r)) as [E|N].
    + rewrite decide_True; [done|]. rewrite fmap_cons, E. left.
    + rewrite !fmap_cons, IH.
      destruct (decide (l_command r ∈ (g_command <$> gs))).
      * rewrite decide_True; [done|]. now right.
      * rewrite decide_False; [done|]. rewrite elem_of_cons. intros [?|?]; done.
Qed.

(** A row of the groups after one more audit row: an old group of another
    command, the new group of a command seen for the first time, or the
    group of the command with the row counted in. *)
Lemma group_add_rows r gs g' :
  NoDup (g_command <$> gs) ->
  g' ∈ group_add r gs ->
  (g' ∈ gs /\ g_command g' <> l_command r)
  \/ ((l_command r ∉ (g_command <$> gs))
      /\ g' = mk_usage (l_command r) 1 (l_timestamp r) (l_success r)
                       (1 - l_success r))
  \/ exists g, g ∈ gs /\ g_command g = l_command r
       /\ g' = mk_usage (g_command g) (g_usage_count g + 1)
                 (Z.max (g_last_used g) (l_timestamp r))
                 (g_success_count g + l_success r)
                 (g_usage_count g + 1 - (g_success_count g + l_success r)).
Proof.
  induction gs as [|g gs IH]; simpl.
  - intros _ ->%list_elem_of_singleton. right. left.
    split; [|done]. intros H. inversion H.
  - rewrite NoDup_cons. intros [Hg Hnd].
    destruct (String.eqb_spec (g_command g) (l_command r)) as [E|N].
    + rewrite elem_of_cons. intros [->|H].
      * right. right. exists g. split; [left|done].
      * left. split; [now right|]. intros E'. apply Hg.
        apply list_elem_of_fmap. exists g'. split; [congruence|done].
    + rewrite elem_of_cons. intros [->|H].
      * left. split; [left|done].
      * destruct (IH Hnd H) as [[Hin Hn]|[[Hnot ->]|(g0 & Hg0 & Hc0 & ->)]].
        -- left. split; [now right|done].
        -- right. left. split; [|done].
           rewrite elem_of_cons. intros [?|?]; done.
        -- right. right. exists g0. split; [now right|done].
Qed.

Lemma usage_of_snoc logs gs r :
  usage_of logs gs -> usage_of (logs ++ [r]) (group_add r gs).
Proof.
  intros (Hnd & Hmem & Hrows). split; [|split].
  - rewrite group_add_commands. destruct (decide _) as [|Hn]; [done|].
    apply NoDup_app. split; [done|]. split; [|apply NoDup_singleton].
    intros c Hc ->%list_elem_of_singleton. done.
  - intros c. rewrite group_add_commands, fmap_app, elem_of_app. simpl.
    rewrite list_elem_of_singleton, <- Hmem.
    destruct (decide _) as [Hin|Hn].
    + split; [auto|]. intros [?| ->]; done.
    + rewrite elem_of_app, list_elem_of_singleton. done.
  - intros g' Hg'.
    destruct (group_add_rows r gs g' Hnd Hg')
      as [[Hin Hne]|[[Hnot ->]|(g & Hg & Hc & ->)]].
    + rewrite rows_of_snoc, decide_False, app_nil_r by congruence.
      now apply Hrows.
    + simpl. rewrite rows_of_snoc, decide_True by done.
      rewrite rows_of_nil by (now rewrite <- Hmem). simpl. lia.
    + simpl. destruct (Hrows g Hg) as (H1 & H2 & H3).
      rewrite rows_of_snoc, decide_True by done.
      rewrite length_app, sum_success_app, H1, H2. simpl. lia.
Qed.

Lemma usage_of_group_by_command logs : usage_of logs (group_by_command logs).
Proof.
  induction logs as [|r logs IH] using rev_ind.
  - split; [apply NoDup_nil_2|]. split; [done|].
    intros g H. inversion H.
  - rewrite group_by_command_snoc. now apply usage_of_snoc.
Qed.

Lemma sum_success_flags logs :
  (forall r, r ∈ logs -> l_success r = 0 \/ l_success r = 1) ->
  Z.of_nat (length logs) - sum_success logs
  = Z.of_nat (length (filter (fun r => l_success r = 0) logs)).
Proof.
  induction logs as [|r logs IH]; [done|]. intros H.
  rewrite filter_cons. simpl.
  specialize (IH (fun r' Hr' => H r' (list_elem_of_further _ _ _ Hr'))).
  destruct (H r (list_elem_of_here _ _)) as [E|E];
    destruct (decide (l_success r = 0)); simpl; lia.
Qed.

(** X20.  One row per command, with the counts of its audit rows.  The
    command-usage sheet lists every command of [command_logs] exactly
    once.  The [usage_count] of a row is the number of audit rows of its
    command, its [success_count] the sum of their success flags, and its
    [error_count] the difference -- the number of those rows with success
    0 when, as [log_command] writes them, all flags are 0 or 1. *)
Theorem command_usage_counts_rows w :
  let logs := command_logs w in
  NoDup (g_command <$> command_usage w)
  /\ (forall c, c ∈ (g_command <$> command_usage w)
                <-> c ∈ (l_command <$> logs))
  /\ forall g, g ∈ command_usage w ->
       g_usage_count g = Z.of_nat (length (rows_of (g_command g) logs))
       /\ g_success_count g = sum_success (rows_of (g_command g) logs)
       /\ g_error_count g = g_usage_count g - g_success_count g
       /\ ((forall r, r ∈ logs -> l_success r = 0 \/ l_success r = 1) ->
           g_error_count g
           = Z.of_nat (length (filter (fun r => l_success r = 0)
                                      (rows_of (g_command g) logs)))).
Proof.
  cbv zeta. unfold command_usage.
  destruct (usage_of_group_by_command (command_logs w)) as (Hnd & Hmem & Hrows).
  pose proof (order_by_usage_perm (group_by_command (command_logs w))) as Hp.
  split; [now rewrite Hp|]. split; [intros c; now rewrite Hp|].
  intros g Hg. rewrite Hp in Hg. destruct (Hrows g Hg) as (H1 & H2 & H3).
  repeat split; try done.
  intros Hflags. rewrite H3, H1, H2. apply sum_success_flags.
  intros r Hr. apply Hflags. unfold rows_of in Hr.
  apply list_elem_of_filter in Hr. tauto.
Qed.

End CommandUsage.

(** ** Counters are never deleted *)
Section NoDeletion.

Context {lib : Library}.

Lemma modify_item_count_grows e item_id operation amount w :
  let w' := snd (modify_item_count e item_id operation amount w) in
  (forall k, is_Some (items w !! k) -> is_Some (items w' !! k))
  /\ (size (items w) <= size (items w') <= S (size (items w)))%nat.
Proof.
  cbv zeta. unfold modify_item_count.
  destruct (items w !! item_id) as [row|] eqn:E.
  - destruct (fits_sqlite_integer _); simpl; [|split; [done|lia]]. split.
    + intros k Hk. destruct (decide (item_id = k)) as [->|Hne].
      * rewrite lookup_insert_eq. eauto.
      * now rewrite lookup_insert_ne.
    + rewrite map_size_insert_Some by eauto. lia.
  - simpl. split.
    + intros k Hk. destruct (decide (item_id = k)) as [->|Hne].
      * rewrite lookup_insert_eq. eauto.
      * now rewrite lookup_insert_ne.
    + rewrite map_size_insert_None by done. lia.
Qed.

(** X21.  No request deletes a counter: a counter that exists before a
    request exists after it, and [Total Items], the number of counters,
    stays or grows by one. *)
Theorem process_command_never_deletes_a_counter e fid text w :
  let w' := snd (process_command e fid text w) in
  (forall k, is_Some (items w !! k) -> is_Some (items w' !! k))
  /\ total_items w <= total_items w' <= total_items w + 1.
Proof.
  cbv zeta. unfold total_items.
  assert (Hsame : forall w', items w' = items w ->
    (forall k, is_Some (items w !! k) -> is_Some (items w' !! k))
    /\ Z.of_nat (size (items w)) <= Z.of_nat (size (items w'))
       <= Z.of_nat (size (items w)) + 1).
  { intros w' ->. split; [done|lia]. }
  destruct (process_command_cases e fid text w)
    as [[_ ->]|[(_ & -> & _)|[(_ & t & _ & _ & _ & _ & ->)|(_ & _ & ->)]]];
    try (now apply Hsame).
  destruct (dispatch_cases e fid (Py.strip text) w)
    as [(_ & _ & E)|(op & m & n & w1 & _ & _ & _ & Hm & ->)];
    [now apply Hsame|].
  pose proof (modify_item_count_grows e "default_item" op 1 w) as [H1 H2].
  rewrite Hm in H1, H2. simpl in *. split; [done|lia].
Qed.

End NoDeletion.

(** ** The properties on sample inputs *)

Lemma process_command_keeps_counts_nonnegative_witness :
  counts_nonnegative
    (snd (Sample.process_command (Sample.at_time 60) "X" "[subtract]"
                                 Sample.after_login_X)).
Proof.
  apply (process_command_keeps_counts_nonnegative (lib := Sample.library)).
  intros k row H. vm_compute in H. discriminate H.
Defined.

Lemma process_command_touches_default_item_only_witness :
  items (snd (Sample.process_command (Sample.at_time 60) "X" "[add]"
                                     Sample.after_login_X)) !! "widget"
  = items Sample.after_login_X !! "widget".
Proof.
  apply (process_command_touches_default_item_only (lib := Sample.library)).
  discriminate.
Defined.

Lemma counter_change_is_authenticated_and_audited_witness :
  is_user_authenticated (Sample.at_time 60) "X" Sample.after_login_X = true.
Proof.
  refine (proj1 (counter_change_is_authenticated_and_audited
                   (lib := Sample.library) (Sample.at_time 60) "X" "[add]"
                   Sample.after_login_X _)).
  intros H. apply (f_equal (fun m => m !! "default_item")) in H.
  vm_compute in H. discriminate H.
Defined.

Lemma authentication_only_expires_witness :
  is_user_authenticated (Sample.at_time 60) "X" Sample.after_login_X = true.
Proof.
  refine (proj1 (authentication_only_expires (Sample.at_time 60)
                   (Sample.at_time 3600) "X" Sample.after_login_X _) _).
  - vm_compute. discriminate.
  - reflexivity.
Defined.

Lemma login_authenticates_witness :
  is_user_authenticated (Sample.at_time 3600) "X"
    (snd (Sample.process_command (Sample.at_time 0) "X" "[admin]"
                                 Sample.scenario_db))
  = true.
Proof.
  refine (login_authenticates (lib := Sample.library) (Sample.at_time 0) "X"
            "[admin]" Sample.scenario_db _ (Sample.at_time 3600) _ _ _).
  - reflexivity.
  - reflexivity.
  - vm_compute. reflexivity.
Defined.

Lemma process_command_keeps_facebook_ids_unique_witness :
  NoDup (u_facebook_id <$>
           users (snd (Sample.process_command (Sample.at_time 0) "X" "[admin]"
                                              Sample.scenario_db))).
Proof.
  apply (process_command_keeps_facebook_ids_unique (lib := Sample.library)).
  apply NoDup_singleton.
Defined.

Lemma count_reports_last_modification_witness :
  exists n,
    n = 1
    /\ "Item default_item added successfully. New count: 1"
       = "Item default_item " +:+ "add" +:+ "ed successfully. New count: "
         +:+ Py.str_int n
    /\ fst (Sample.process_command (Sample.at_time 120) "X" "[count]"
              (snd (Sample.process_command (Sample.at_time 60) "X" "[add]"
                                           Sample.after_login_X)))
       = Return ("Current count for default_item: " +:+ Py.str_int n).
Proof.
  exact (count_reports_last_modification (lib := Sample.library)
           (Sample.at_time 60) (Sample.at_time 120) "X" "X" "[add]" "[count]"
           "add" Sample.after_login_X
           "Item default_item added successfully. New count: 1" _
           (or_introl eq_refl) eq_refl eq_refl eq_refl eq_refl eq_refl).
Defined.

Lemma count_is_read_only_witness :
  fst (Sample.process_command (Sample.at_time 60) "X" "[count]"
                              Sample.after_login_X)
  = Return "Current count for default_item: 0".
Proof.
  exact (proj1 (proj1 (proj2
    (count_is_read_only (lib := Sample.library) (Sample.at_time 60)
       (Sample.at_time 61) "X" "[count]" " [count]" Sample.after_login_X
       eq_refl eq_refl eq_refl eq_refl)) eq_refl)).
Defined.

Lemma unbracketed_text_is_unknown_witness :
  Sample.process_command (Sample.at_time 60) "X" "" Sample.after_login_X
  = (Return "Unknown command. Use [help] to see available commands.",
     logged (mk_log "X" "unknown" (Some "") 0 (Some "Unknown command") 60)
            Sample.after_login_X).
Proof.
  exact (unbracketed_text_is_unknown (lib := Sample.library)
           (Sample.at_time 60) "X" "" Sample.after_login_X eq_refl).
Defined.

Lemma no_login_without_self_password_witness :
  user_sessions (run_requests (lib := Sample.library) Fixture.requests
                              Sample.fresh_db)
  = [].
Proof.
  refine (proj1 (proj2 (no_login_without_self_password (lib := Sample.library)
                          Fixture.requests Sample.fresh_db _))).
  intros u Hu. apply list_elem_of_singleton in Hu as ->. reflexivity.
Defined.

Lemma fresh_install_lets_nobody_in_witness :
  items (run_requests (lib := Sample.library) Fixture.requests
           (snd (Fixture.init_database (Sample.at_time 0) empty_db)))
  = ∅.
Proof.
  exact (proj1 (proj2
    (fresh_install_lets_nobody_in (lib := Sample.library)
       Sample.generate_password_hash (Sample.at_time 0) _ Fixture.requests
       eq_refl eq_refl))).
Defined.

Lemma init_database_keeps_data_witness :
  Fixture.init_database (Sample.at_time 9) Sample.after_login_X
  = (Return tt, Sample.after_login_X).
Proof.
  refine (proj2 (proj2 (proj2 (proj2 (proj2 (proj2
    (init_database_keeps_data Sample.generate_password_hash (Sample.at_time 0)
       Sample.after_login_X Sample.after_login_X _)))))) (Sample.at_time 9)).
  reflexivity.
Defined.

Lemma init_database_keeps_users_unique_witness :
  NoDup (u_facebook_id <$>
           users (snd (Fixture.init_database (Sample.at_time 0) empty_db))).
Proof.
  refine (proj1 (proj2
    (init_database_keeps_users_unique Sample.generate_password_hash
       (Sample.at_time 0) empty_db _ _))); apply NoDup_nil_2.
Defined.
